(** * rasa-whatsapp-connector: the message adapter of [whatsapp.py]

    A shallow embedding of [RasaToWhatsappConverter]: the outbound path
    ([prepare_message] and its three builders) and the inbound path
    ([_get_value], [get_message_from_whatsapp_hook]), over a model of the
    Python values that a parsed JSON document is made of.

    Conventions of the embedding.
    - A Python [str] is a [string]; one element of the [string] stands for one
      character of the [str], so that [s[0:n]] is the prefix of [n] elements.
    - A [dict] with [str] keys is a [gmap string pyval]: equality of two dicts
      is equality of their lookups, as Python's [==] on dicts is.
    - A raised exception is the [Raise] outcome of the [result] monad; only
      the class of the exception (and the message of a [ValueError]) is kept.
    - [send_message] is modelled over an abstract transport: the HTTP call
      and the decoding of its response are parameters of the embedding. *)

From stdpp Require Import gmap strings list fin_maps.
From Stdlib Require Import ZArith.

Set Warnings "-register-all".

Open Scope string_scope.
Open Scope list_scope.
Open Scope nat_scope.

(** ** Python values and the operations the converter applies to them *)

Module Py.

(** The values [json.loads] produces. [PFloat] carries the binary64 bit
    pattern; no operation of the converter looks inside a number. *)
Inductive pyval : Type :=
| PNone
| PBool (b : bool)
| PInt (n : Z)
| PFloat (bits : Z)
| PStr (s : string)
| PList (l : list pyval)
| PDict (d : gmap string pyval).

(** The exception classes that the operations below can raise. *)
Inductive exn : Type :=
| ValueError (msg : string)
| KeyError
| TypeError
| IndexError.

Inductive result (A : Type) : Type :=
| Ok (a : A)
| Raise (e : exn).

Arguments Ok {A} a.
Arguments Raise {A} e.

#[export] Instance result_ret : MRet result := fun A a => Ok a.

#[export] Instance result_bind : MBind result := fun A B f r =>
  match r with
  | Ok a => f a
  | Raise e => Raise e
  end.

(** [v == s] for a string literal [s]: only a [str] with the same characters
    is equal to it. *)
Definition eq_str (v : pyval) (s : string) : bool :=
  match v with
  | PStr t => String.eqb t s
  | _ => false
  end.

(** [v is None] *)
Definition is_None (v : pyval) : bool :=
  match v with
  | PNone => true
  | _ => false
  end.

(** [k in c] for a string literal [k]: a key of a dict, an element of a list,
    a substring of a str; the other values are not containers. *)
Definition contains (k : string) (c : pyval) : result bool :=
  match c with
  | PDict d => Ok (match d !! k with Some _ => true | None => false end)
  | PList l => Ok (existsb (fun v => eq_str v k) l)
  | PStr s => Ok (match String.index 0 k s with Some _ => true | None => false end)
  | _ => Raise TypeError
  end.

(** [k not in c] *)
Definition not_in (k : string) (c : pyval) : result bool :=
  b ← contains k c; Ok (negb b).

(** [len(c)] *)
Definition len (c : pyval) : result nat :=
  match c with
  | PList l => Ok (length l)
  | PStr s => Ok (String.length s)
  | PDict d => Ok (size d)
  | _ => Raise TypeError
  end.

(** [c[k]] for a string literal [k]: a dict is looked up, everything else
    rejects a [str] subscript. *)
Definition getitem (c : pyval) (k : string) : result pyval :=
  match c with
  | PDict d =>
      match d !! k with
      | Some v => Ok v
      | None => Raise KeyError
      end
  | _ => Raise TypeError
  end.

(** [c[0]]: the first element of a list, the first character of a str; a dict
    with [str] keys has no key [0]. *)
Definition getitem0 (c : pyval) : result pyval :=
  match c with
  | PList (x :: _) => Ok x
  | PList [] => Raise IndexError
  | PStr (String a _) => Ok (PStr (String a EmptyString))
  | PStr EmptyString => Raise IndexError
  | PDict _ => Raise KeyError
  | _ => Raise TypeError
  end.

(** [c[0:n]] (also written [c[:n]]): a prefix of a str or of a list. A dict
    rejects the slice as a key (unhashable before Python 3.12, absent key
    from then on); it is recorded as [TypeError]. *)
Definition slice_to (n : nat) (c : pyval) : result pyval :=
  match c with
  | PStr s => Ok (PStr (String.substring 0 n s))
  | PList l => Ok (PList (take n l))
  | _ => Raise TypeError
  end.

(** [a or b] and [a and b] on conditions that may raise: the right operand
    is evaluated only when the left one does not decide. *)
Definition or_else (a b : result bool) : result bool :=
  x ← a; if (x : bool) then Ok true else b.

Definition and_then (a b : result bool) : result bool :=
  x ← a; if (x : bool) then b else Ok false.

(** [try: body  except KeyError: raise e] *)
Definition except_KeyError {A : Type} (body : result A) (e : exn) : result A :=
  match body with
  | Raise KeyError => Raise e
  | r => r
  end.

End Py.

Import Py.

(** ** The converter *)

Definition DEFAULT_WHATSAPP_API_TIMEOUT : Z := 10.

(** The attributes [__init__] stores. *)
Record RasaToWhatsappConverter : Type := {
  _phone_identifier : string;
  _token : string;
  _graphql_api_version : string;
  _api_timeout : Z
}.

(** [__init__] with its two defaulted parameters given explicitly. *)
Definition init (phone_identifier token : string)
    (graphql_api_version : string) (api_timeout : Z) : RasaToWhatsappConverter :=
  {| _phone_identifier := phone_identifier;
     _token := token;
     _graphql_api_version := graphql_api_version;
     _api_timeout := api_timeout |}.

(** [RasaToWhatsappConverter(phone_identifier, token)] *)
Definition init_default (phone_identifier token : string) : RasaToWhatsappConverter :=
  init phone_identifier token "v18.0" DEFAULT_WHATSAPP_API_TIMEOUT.

(** *** Outbound path *)

(** The loop of [_prepare_button_message] over [buttons[:3]];
    [whatsapp_buttons] is the list the loop appends to. *)
Fixpoint button_loop (buttons : list (gmap string pyval))
    (whatsapp_buttons : list pyval) : result (list pyval) :=
  match buttons with
  | [] => Ok whatsapp_buttons
  | button :: rest =>
      t ← getitem (PDict button) "title";
      title ← slice_to 20 t;
      whatsapp_id ← getitem (PDict button) "payload";
      button_loop rest
        (whatsapp_buttons ++
           [PDict {[ "type" := PStr "reply";
                     "reply" := PDict {[ "id" := whatsapp_id;
                                         "title" := title ]} ]}])
  end.

Definition _prepare_button_message (self : RasaToWhatsappConverter)
    (to text : string) (buttons : list (gmap string pyval)) : result pyval :=
  whatsapp_buttons ← button_loop (take 3 buttons) [];
  Ok (PDict {[ "messaging_product" := PStr "whatsapp";
                 "to" := PStr to;
                 "type" := PStr "interactive";
                 "interactive" :=
                   PDict {[ "type" := PStr "button";
                            "body" := PDict {[ "text" := PStr text ]};
                            "action" :=
                              PDict {[ "buttons" := PList whatsapp_buttons ]} ]} ]}).

(** The loop of [_prepare_list_message] over [buttons[:10]]. *)
Fixpoint list_loop (buttons : list (gmap string pyval))
    (whatsapp_list : list pyval) : result (list pyval) :=
  match buttons with
  | [] => Ok whatsapp_list
  | button :: rest =>
      t ← getitem (PDict button) "title";
      title ← slice_to 24 t;
      whatsapp_id ← getitem (PDict button) "payload";
      list_loop rest
        (whatsapp_list ++
           [PDict {[ "id" := whatsapp_id; "title" := title ]}])
  end.

(** The default of the parameter [list_name]. *)
Definition default_list_name : string := "Select".

Definition _prepare_list_message (self : RasaToWhatsappConverter)
    (to text : string) (buttons : list (gmap string pyval))
    (list_name : string) : result pyval :=
  whatsapp_list ← list_loop (take 10 buttons) [];
  Ok (PDict {[ "messaging_product" := PStr "whatsapp";
                 "to" := PStr to;
                 "type" := PStr "interactive";
                 "interactive" :=
                   PDict {[ "type" := PStr "list";
                            "body" := PDict {[ "text" := PStr text ]};
                            "action" :=
                              PDict {[ "button" := PStr list_name;
                                       "sections" :=
                                         PList [PDict {[ "title" := PStr list_name;
                                                         "rows" := PList whatsapp_list ]}] ]} ]} ]}).

Definition _prepare_text_message (self : RasaToWhatsappConverter)
    (to text : string) : pyval :=
  PDict {[ "messaging_product" := PStr "whatsapp";
           "to" := PStr to;
           "text" := PDict {[ "body" := PStr text ]} ]}.

(** [buttons] is [None] or a list of dicts, as its annotation says. *)
Definition prepare_message (self : RasaToWhatsappConverter)
    (to text : string) (buttons : option (list (gmap string pyval))) : result pyval :=
  match buttons with
  | Some buttons =>
      if (length buttons <=? 3)%nat
      then _prepare_button_message self to text buttons
      else _prepare_list_message self to text buttons default_list_name
  | None => Ok (_prepare_text_message self to text)
  end.

(** *** Inbound path *)

Definition _get_value (self : RasaToWhatsappConverter) (data : pyval) : result pyval :=
  invalid ← or_else (not_in "entry" data)
                    (e ← getitem data "entry"; n ← len e; Ok (n =? 0)%nat);
  if (invalid : bool) then Raise (ValueError "Provided data is invalid!") else
  e ← getitem data "entry";
  entry ← getitem0 e;
  invalid ← or_else (not_in "changes" entry)
                    (c ← getitem entry "changes"; n ← len c; Ok (n =? 0)%nat);
  if (invalid : bool) then Raise (ValueError "Provided data is invalid!") else
  c ← getitem entry "changes";
  change ← getitem0 c;
  invalid ← not_in "value" change;
  if (invalid : bool) then Raise (ValueError "Provided data is invalid!") else
  getitem change "value".

(** The body of the [try] statement of [get_message_from_whatsapp_hook]. It
    yields the two variables it assigns, [sender_id] and [text]; each
    condition evaluates [message["type"]] again, as the source does. *)
Definition try_body (message : pyval) : result (pyval * pyval) :=
  sender_id ← getitem message "from";
  let text := PNone in
  is_text ← (ty ← getitem message "type"; Ok (eq_str ty "text"));
  if (is_text : bool) then
    t ← getitem message "text";
    text ← getitem t "body";
    Ok (sender_id, text)
  else
  is_button_reply ←
    and_then (ty ← getitem message "type"; Ok (eq_str ty "interactive"))
             (i ← getitem message "interactive";
              ty ← getitem i "type";
              Ok (eq_str ty "button_reply"));
  if (is_button_reply : bool) then
    i ← getitem message "interactive";
    r ← getitem i "button_reply";
    text ← getitem r "id";
    Ok (sender_id, text)
  else
  is_list_reply ←
    and_then (ty ← getitem message "type"; Ok (eq_str ty "interactive"))
             (i ← getitem message "interactive";
              ty ← getitem i "type";
              Ok (eq_str ty "list_reply"));
  if (is_list_reply : bool) then
    i ← getitem message "interactive";
    r ← getitem i "list_reply";
    text ← getitem r "id";
    Ok (sender_id, text)
  else
    Ok (sender_id, text).

(** What [get_message_from_whatsapp_hook] does with [message], from the
    [try] statement to the [return]. *)
Definition message_to_rasa (message : pyval) : result pyval :=
  st ← except_KeyError (try_body message) (ValueError "Provided data is invalid!");
  let '(sender_id, text) := (st : pyval * pyval) in
  if is_None text then Raise (ValueError "Provided data is invalid!") else
  Ok (PDict {[ "sender_id" := sender_id;
               "text" := text;
               "metadata" := PDict ∅ ]}).

Definition get_message_from_whatsapp_hook (self : RasaToWhatsappConverter)
    (data : pyval) : result pyval :=
  value ← _get_value self data;
  invalid ← or_else (not_in "messages" value)
                    (m ← getitem value "messages"; n ← len m; Ok (n =? 0)%nat);
  if (invalid : bool) then Raise (ValueError "Provided value is invalid") else
  m ← getitem value "messages";
  message ← getitem0 m;
  message_to_rasa message.

(** ** Vocabulary of the specification *)

(** The three wire shapes of the data model (TextMessage, ButtonMessage,
    ListMessage), written from the specification's description of them and
    compared below with what [prepare_message] builds. A reply button and a
    list row are given by their identifier and their title. *)
Module WireSpec.

Definition TextMessage (recipient text : string) : pyval :=
  PDict {[ "messaging_product" := PStr "whatsapp";
           "to" := PStr recipient;
           "text" := PDict {[ "body" := PStr text ]} ]}.

Definition reply_button (b : pyval * string) : pyval :=
  PDict {[ "type" := PStr "reply";
           "reply" := PDict {[ "id" := b.1; "title" := PStr b.2 ]} ]}.

Definition ButtonMessage (recipient text : string)
    (replies : list (pyval * string)) : pyval :=
  PDict {[ "messaging_product" := PStr "whatsapp";
           "to" := PStr recipient;
           "type" := PStr "interactive";
           "interactive" :=
             PDict {[ "type" := PStr "button";
                      "body" := PDict {[ "text" := PStr text ]};
                      "action" :=
                        PDict {[ "buttons" := PList (reply_button <$> replies) ]} ]} ]}.

Definition list_row (b : pyval * string) : pyval :=
  PDict {[ "id" := b.1; "title" := PStr b.2 ]}.

Definition ListMessage (recipient text : string)
    (rows : list (pyval * string)) : pyval :=
  PDict {[ "messaging_product" := PStr "whatsapp";
           "to" := PStr recipient;
           "type" := PStr "interactive";
           "interactive" :=
             PDict {[ "type" := PStr "list";
                      "body" := PDict {[ "text" := PStr text ]};
                      "action" :=
                        PDict {[ "button" := PStr "Select";
                                 "sections" :=
                                   PList [PDict {[ "title" := PStr "Select";
                                                   "rows" := PList (list_row <$> rows) ]}] ]} ]} ]}.

(** The first [n] characters of a title. *)
Definition first_chars (n : nat) (s : string) : string := String.substring 0 n s.

(** A Button of the data model, as the dict the caller passes: a [str]
    under ["title"] and a value under ["payload"]. *)
Definition is_button (button : gmap string pyval) (title : string) (payload : pyval) : Prop :=
  button !! "title" = Some (PStr title) ∧ button !! "payload" = Some payload.

(** A list of dicts that are Buttons, with their titles and payloads. *)
Definition are_buttons (buttons : list (gmap string pyval))
    (bs : list (string * pyval)) : Prop :=
  Forall2 (fun button b => is_button button b.1 b.2) buttons bs.

(** The normalized inbound message; the key of the sender is [sender_id]. *)
Definition NormalizedInboundMessage (sender text : pyval) : pyval :=
  PDict {[ "sender_id" := sender; "text" := text; "metadata" := PDict ∅ ]}.

End WireSpec.

(** The fixed path of an inbound payload, [entry[0].changes[0].value.messages[0]],
    read as JSON: objects are entered by key and arrays by their first
    element. *)
Module PathSpec.

Definition field (k : string) (v : pyval) : option pyval :=
  match v with
  | PDict d => d !! k
  | _ => None
  end.

Definition first (v : pyval) : option pyval :=
  match v with
  | PList (x :: _) => Some x
  | _ => None
  end.

Definition first_change (data : pyval) : option pyval :=
  e ← field "entry" data; entry ← first e;
  c ← field "changes" entry; first c.

Definition first_message (data : pyval) : option pyval :=
  change ← first_change data; value ← field "value" change;
  m ← field "messages" value; first m.

(** The required segments of the path. *)
Inductive segment : Type := Entry | Changes | Value | Messages.

(** [absent_or_empty k v]: the object [v] has no key [k], or has the empty
    array under it. *)
Definition absent_or_empty (k : string) (v : pyval) : bool :=
  match v with
  | PDict d =>
      match d !! k with
      | None | Some (PList []) => true
      | Some _ => false
      end
  | _ => false
  end.

Definition absent (k : string) (v : pyval) : bool :=
  match v with
  | PDict d => match d !! k with None => true | Some _ => false end
  | _ => false
  end.

(** The first segment of the path that is missing or empty, if the payload
    is an object down to that segment. *)
Definition missing_segment (data : pyval) : option segment :=
  if absent_or_empty "entry" data then Some Entry else
  match field "entry" data ≫= first with
  | None => None
  | Some entry =>
      if absent_or_empty "changes" entry then Some Changes else
      match field "changes" entry ≫= first with
      | None => None
      | Some change =>
          if absent "value" change then Some Value else
          match field "value" change with
          | None => None
          | Some value =>
              if absent_or_empty "messages" value then Some Messages else None
          end
      end
  end.

(** The text of a message by its type, for the three recognised shapes;
    [None] when the message has none of them. *)
Definition recognised_text (m : gmap string pyval) : option pyval :=
  match m !! "type" with
  | Some ty =>
      if eq_str ty "text" then m !! "text" ≫= field "body"
      else if eq_str ty "interactive" then
        match m !! "interactive" ≫= field "type" with
        | Some ity =>
            if eq_str ity "button_reply"
            then i ← m !! "interactive"; r ← field "button_reply" i; field "id" r
            else if eq_str ity "list_reply"
            then i ← m !! "interactive"; r ← field "list_reply" i; field "id" r
            else None
        | None => None
        end
      else None
  | None => None
  end.

(** [o] is absent or an object. *)
Definition object_if_present (o : option pyval) : bool :=
  match o with
  | None | Some (PDict _) => true
  | Some _ => false
  end.

(** Each sub-structure of a message that the parser enters is an object
    where present: [text] when the type is "text"; [interactive] when the
    type is "interactive", and then [button_reply] or [list_reply] when the
    type of the interaction names it. A message without sender or without
    type is entered nowhere. *)
Definition entered_objects (m : gmap string pyval) : bool :=
  match m !! "from", m !! "type" with
  | Some _, Some ty =>
      if eq_str ty "text" then object_if_present (m !! "text")
      else if eq_str ty "interactive" then
        match m !! "interactive" with
        | None => true
        | Some (PDict i) =>
            match i !! "type" with
            | Some ity =>
                if eq_str ity "button_reply"
                then object_if_present (i !! "button_reply")
                else if eq_str ity "list_reply"
                then object_if_present (i !! "list_reply")
                else true
            | None => true
            end
        | Some _ => false
        end
      else true
  | _, _ => true
  end.

(** What is wrong with a segment of the path: its key is missing from the
    object that should hold it, or it is an empty array. *)
Inductive defect : Type :=
| Missing (s : segment)
| Empty (s : segment).

Definition lookup_defect (s : segment) (k : string) (v : pyval) : option defect :=
  match v with
  | PDict d =>
      match d !! k with
      | None => Some (Missing s)
      | Some (PList []) => Some (Empty s)
      | Some _ => None
      end
  | _ => None
  end.

(** The first defect along the path, if the payload is made of objects and
    non-empty arrays down to it. *)
Definition path_defect (data : pyval) : option defect :=
  match lookup_defect Entry "entry" data with
  | Some d => Some d
  | None =>
      match field "entry" data ≫= first with
      | None => None
      | Some entry =>
          match lookup_defect Changes "changes" entry with
          | Some d => Some d
          | None =>
              match field "changes" entry ≫= first with
              | None => None
              | Some change =>
                  match lookup_defect Value "value" change with
                  | Some d => Some d
                  | None =>
                      match field "value" change with
                      | None => None
                      | Some value => lookup_defect Messages "messages" value
                      end
                  end
              end
          end
      end
  end.

End PathSpec.

Import WireSpec PathSpec.

(** The WireMessage union of the data model with its bounds: at most three
    reply buttons with titles of at most 20 characters, at most ten rows
    with titles of at most 24 characters. *)
Inductive wire_message : pyval → Prop :=
| wire_text recipient text :
    wire_message (TextMessage recipient text)
| wire_button recipient text replies :
    length replies ≤ 3 →
    Forall (λ r : pyval * string, String.length r.2 ≤ 20) replies →
    wire_message (ButtonMessage recipient text replies)
| wire_list recipient text rows :
    length rows ≤ 10 →
    Forall (λ r : pyval * string, String.length r.2 ≤ 24) rows →
    wire_message (ListMessage recipient text rows).

(** The buttons argument is absent or a list of Buttons. *)
Definition buttons_argument (buttons : option (list (gmap string pyval))) : Prop :=
  match buttons with
  | None => True
  | Some l => ∃ bs, are_buttons l bs
  end.

(** The reply button and the list row that a Button with title [b.1] and
    payload [b.2] is mapped to. *)
Definition to_reply (b : string * pyval) : pyval * string := (b.2, first_chars 20 b.1).

Definition to_row (b : string * pyval) : pyval * string := (b.2, first_chars 24 b.1).

(** [message_text m t]: the message [m] has one of the three recognised
    shapes and [t] is its text. *)
Inductive message_text (m : gmap string pyval) (t : pyval) : Prop :=
| text_message (tx : gmap string pyval) :
    m !! "type" = Some (PStr "text") →
    m !! "text" = Some (PDict tx) →
    tx !! "body" = Some t →
    message_text m t
| button_reply_message (i r : gmap string pyval) :
    m !! "type" = Some (PStr "interactive") →
    m !! "interactive" = Some (PDict i) →
    i !! "type" = Some (PStr "button_reply") →
    i !! "button_reply" = Some (PDict r) →
    r !! "id" = Some t →
    message_text m t
| list_reply_message (i r : gmap string pyval) :
    m !! "type" = Some (PStr "interactive") →
    m !! "interactive" = Some (PDict i) →
    i !! "type" = Some (PStr "list_reply") →
    i !! "list_reply" = Some (PDict r) →
    r !! "id" = Some t →
    message_text m t.

(** The description of the [ValueError] raised for a defect of the path:
    that of [_get_value] when [entry] or [changes] is missing or empty or
    [value] is missing, that of the test on [messages] otherwise. *)
Definition defect_description (d : defect) : string :=
  match d with
  | Missing Messages | Empty Messages | Empty Value => "Provided value is invalid"
  | _ => "Provided data is invalid!"
  end.

(** ** Sample inputs *)

Module Samples.

Definition converter : RasaToWhatsappConverter :=
  init_default "/106540352242922" "EAAJB".

Definition other_converter : RasaToWhatsappConverter :=
  init "/209871123455512" "EAAZC" "v19.0" 30.

Definition button (title payload : string) : gmap string pyval :=
  {[ "title" := PStr title; "payload" := PStr payload ]}.

Definition yes_no : list (gmap string pyval) :=
  [button "Yes, I would like that very much" "/affirm"; button "No" "/deny"].

Definition weekdays : list (string * pyval) :=
  (λ d : string, (d, PStr ("/day_" +:+ d))) <$>
    ["Mon"; "Tue"; "Wed"; "Thu"; "Fri"; "Sat"; "Sun"; "Mon2"; "Tue2"; "Wed2";
     "Thu2"; "An appointment in three weeks"].

Definition weekday_buttons : list (gmap string pyval) :=
  (λ b : string * pyval, {[ "title" := PStr b.1; "payload" := b.2 ]}) <$> weekdays.

(** A webhook body with the given [messages] array, and the same with
    further entries, changes and fields around it. *)
Definition webhook (messages : list pyval) : pyval :=
  PDict {[ "entry" :=
    PList [PDict {[ "changes" :=
      PList [PDict {[ "value" := PDict {[ "messages" := PList messages ]} ]}] ]}] ]}.

Definition busy_webhook (messages : list pyval) : pyval :=
  PDict {[ "object" := PStr "whatsapp_business_account";
           "entry" :=
    PList [PDict {[ "id" := PStr "1";
                    "changes" :=
      PList [PDict {[ "field" := PStr "messages";
                      "value" := PDict {[ "messaging_product" := PStr "whatsapp";
                                          "messages" := PList messages ]} ]};
             PDict {[ "value" := PInt 7 ]}] ]};
           PNone] ]}.

Definition text_hi : gmap string pyval :=
  {[ "from" := PStr "123"; "type" := PStr "text";
     "text" := PDict {[ "body" := PStr "hi" ]} ]}.

Definition text_null : gmap string pyval :=
  {[ "from" := PStr "123"; "type" := PStr "text";
     "text" := PDict {[ "body" := PNone ]} ]}.

Definition text_not_object : gmap string pyval :=
  {[ "from" := PStr "123"; "type" := PStr "text"; "text" := PStr "hi" ]}.

Definition flow_reply : gmap string pyval :=
  {[ "from" := PStr "123"; "type" := PStr "interactive";
     "interactive" := PDict {[ "type" := PStr "nfm_reply";
                               "nfm_reply" := PDict {[ "name" := PStr "flow" ]} ]} ]}.

Definition interactive_not_object : gmap string pyval :=
  {[ "from" := PStr "123"; "type" := PStr "interactive";
     "interactive" := PStr "button_reply" ]}.

Definition entry_is_object : pyval :=
  PDict {[ "entry" := PDict {[ "id" := PStr "1" ]} ]}.

End Samples.

(** ** Sending *)

(** The methods of [str] that [send_message] uses. *)
Module Str.

(** [c.isspace()] for a character below 256: the ASCII white space, the
    four separators 28 to 31, NEL (133) and the no-break space (160). *)
Definition isspace (c : Ascii.ascii) : bool :=
  let n := Ascii.nat_of_ascii c in
  ((9 <=? n) && (n <=? 13)) || ((28 <=? n) && (n <=? 32))
  || (n =? 133) || (n =? 160).

(** [s.lstrip()] *)
Fixpoint lstrip (s : string) : string :=
  match s with
  | EmptyString => EmptyString
  | String c s' => if isspace c then lstrip s' else s
  end.

(** [s.rstrip()] *)
Fixpoint rstrip (s : string) : string :=
  match s with
  | EmptyString => EmptyString
  | String c s' =>
      match rstrip s' with
      | EmptyString => if isspace c then EmptyString else String c EmptyString
      | r => String c r
      end
  end.

(** [s.strip()] *)
Definition strip (s : string) : string := rstrip (lstrip s).

(** The line break of a triple-quoted literal. *)
Definition newline : string := String (Ascii.ascii_of_nat 10) EmptyString.

End Str.

(** The arguments of [requests.post]. *)
Record request : Type := {
  request_url : string;
  request_headers : gmap string string;
  request_json : pyval;
  request_timeout : Z
}.

(** The [url] of [send_message]: the stripped f-string. *)
Definition messages_url (self : RasaToWhatsappConverter) : string :=
  Str.strip
    (Str.newline +:+ "            https://graph.facebook.com/"
     +:+ _graphql_api_version self +:+ _phone_identifier self
     +:+ "/messages" +:+ Str.newline +:+ "        ").

(** The [headers] of [send_message]. *)
Definition authorization (self : RasaToWhatsappConverter) : gmap string string :=
  {[ "Authorization" := "Bearer " +:+ _token self ]}.

Section Transport.

(** The network as [send_message] sees it: [requests.post] acts on the
    outside world and yields a response or fails, [response.json()] decodes
    the body or fails; [failure] stands for the exceptions of either. *)
Variables world response failure : Type.
Variable post : request → world → (failure + response) * world.
Variable json : response → failure + pyval.

(** How a call of [send_message] ends: with the decoded body, with an
    exception of [prepare_message], or with a failure of the transport. *)
Inductive sent : Type :=
| Returned (body : pyval)
| Raised (e : exn)
| Failed (f : failure).

Definition send_message (self : RasaToWhatsappConverter) (to text : string)
    (buttons : option (list (gmap string pyval))) (w : world) : sent * world :=
  let url := messages_url self in
  let headers := authorization self in
  match prepare_message self to text buttons with
  | Raise e => (Raised e, w)
  | Ok message =>
      match post {| request_url := url;
                    request_headers := headers;
                    request_json := message;
                    request_timeout := _api_timeout self |} w with
      | (inl f, w') => (Failed f, w')
      | (inr r, w') =>
          match json r with
          | inl f => (Failed f, w')
          | inr body => (Returned body, w')
          end
      end
  end.

End Transport.

Arguments Returned {failure} body.
Arguments Raised {failure} e.
Arguments Failed {failure} f.

(** ** Further vocabulary *)

(** A title that cannot be sliced: null, a boolean or a number. *)
Definition not_text (t : pyval) : bool :=
  match t with
  | PNone | PBool _ | PInt _ | PFloat _ => true
  | PStr _ | PList _ | PDict _ => false
  end.

(** The list shape of [_prepare_list_message] under the label [list_name]. *)
Definition LabelledListMessage (recipient text list_name : string)
    (rows : list (pyval * string)) : pyval :=
  PDict {[ "messaging_product" := PStr "whatsapp";
           "to" := PStr recipient;
           "type" := PStr "interactive";
           "interactive" :=
             PDict {[ "type" := PStr "list";
                      "body" := PDict {[ "text" := PStr text ]};
                      "action" :=
                        PDict {[ "button" := PStr list_name;
                                 "sections" :=
                                   PList [PDict {[ "title" := PStr list_name;
                                                   "rows" := PList (list_row <$> rows) ]}] ]} ]} ]}.

(** The ways [get_message_from_whatsapp_hook] can end. *)
Inductive hook_outcome : result pyval → Prop :=
| outcome_message sender t :
    t ≠ PNone → hook_outcome (Ok (NormalizedInboundMessage sender t))
| outcome_invalid_data :
    hook_outcome (Raise (ValueError "Provided data is invalid!"))
| outcome_invalid_value :
    hook_outcome (Raise (ValueError "Provided value is invalid"))
| outcome_TypeError : hook_outcome (Raise TypeError)
| outcome_KeyError : hook_outcome (Raise KeyError).

(** A transport for examples: the world is the log of the requests made,
    and the response to a request is its own JSON body. *)
Module Loopback.

Definition post (r : request) (w : list request) : (string + pyval) * list request :=
  (inr (request_json r), w ++ [r]).

Definition json (r : pyval) : string + pyval := inr r.

End Loopback.

(** The webhook body that delivers the tap on a reply button, and the one
    that delivers the choice of a list row, from [sender] with the
    identifier [id]. *)
Definition button_reply_hook (sender id : pyval) (title : string) : pyval :=
  Samples.webhook
    [PDict {[ "from" := sender;
              "type" := PStr "interactive";
              "interactive" :=
                PDict {[ "type" := PStr "button_reply";
                         "button_reply" :=
                           PDict {[ "id" := id; "title" := PStr title ]} ]} ]}].

Definition list_reply_hook (sender id : pyval) (title : string) : pyval :=
  Samples.webhook
    [PDict {[ "from" := sender;
              "type" := PStr "interactive";
              "interactive" :=
                PDict {[ "type" := PStr "list_reply";
                         "list_reply" :=
                           PDict {[ "id" := id; "title" := PStr title ]} ]} ]}].

(** ** Properties *)

(** *** Auxiliary facts *)

Lemma first_chars_length n s : String.length (first_chars n s) ≤ n.
Proof.
  unfold first_chars. revert s.
  induction n as [|n IH]; intros [|c s]; simpl; try lia.
  specialize (IH s). lia.
Qed.

Lemma are_buttons_take n buttons bs :
  are_buttons buttons bs → are_buttons (take n buttons) (take n bs).
Proof. apply Forall2_take. Qed.

Lemma are_buttons_length buttons bs :
  are_buttons buttons bs → length buttons = length bs.
Proof. apply Forall2_length. Qed.

(** The loop of the button builder appends one reply button per Button. *)
Lemma button_loop_buttons buttons bs acc :
  are_buttons buttons bs →
  button_loop buttons acc = Ok (acc ++ (reply_button ∘ to_reply <$> bs)).
Proof.
  intros H. revert acc.
  induction H as [|button b buttons bs [Ht Hp] _ IH]; intros acc; simpl.
  - by rewrite app_nil_r.
  - rewrite Ht. simpl. rewrite Hp. simpl. rewrite IH.
    by rewrite <- app_assoc.
Qed.

(** The loop of the list builder appends one row per Button. *)
Lemma list_loop_buttons buttons bs acc :
  are_buttons buttons bs →
  list_loop buttons acc = Ok (acc ++ (list_row ∘ to_row <$> bs)).
Proof.
  intros H. revert acc.
  induction H as [|button b buttons bs [Ht Hp] _ IH]; intros acc; simpl.
  - by rewrite app_nil_r.
  - rewrite Ht. simpl. rewrite Hp. simpl. rewrite IH.
    by rewrite <- app_assoc.
Qed.

Lemma prepare_button_message_buttons self to text buttons bs :
  are_buttons buttons bs →
  _prepare_button_message self to text buttons =
    Ok (ButtonMessage to text (to_reply <$> take 3 bs)).
Proof.
  intros H. unfold _prepare_button_message.
  rewrite (button_loop_buttons _ (take 3 bs)) by by apply are_buttons_take.
  simpl. unfold ButtonMessage. by rewrite list_fmap_compose.
Qed.

Lemma prepare_list_message_buttons self to text buttons bs :
  are_buttons buttons bs →
  _prepare_list_message self to text buttons default_list_name =
    Ok (ListMessage to text (to_row <$> take 10 bs)).
Proof.
  intros H. unfold _prepare_list_message.
  rewrite (list_loop_buttons _ (take 10 bs)) by by apply are_buttons_take.
  simpl. unfold ListMessage. by rewrite list_fmap_compose.
Qed.

Lemma to_reply_titles bs :
  Forall (λ r : pyval * string, String.length r.2 ≤ 20) (to_reply <$> bs).
Proof.
  apply Forall_fmap, Forall_forall. intros b _. apply first_chars_length.
Qed.

Lemma to_row_titles bs :
  Forall (λ r : pyval * string, String.length r.2 ≤ 24) (to_row <$> bs).
Proof.
  apply Forall_fmap, Forall_forall. intros b _. apply first_chars_length.
Qed.

(** *** Outbound path *)

(** C1. For every recipient, text and list of at most three Buttons,
    [prepare_message] returns the button-interactive shape: the reply
    buttons are as many as the Buttons and in their order, the i-th made of
    the payload of the i-th Button and the first 20 characters of its
    title. *)
Theorem prepare_message_up_to_three_buttons self to text buttons bs :
  are_buttons buttons bs →
  length buttons ≤ 3 →
  prepare_message self to text (Some buttons) =
    Ok (ButtonMessage to text (to_reply <$> bs))
  ∧ length (to_reply <$> bs) = length buttons
  ∧ Forall (λ r : pyval * string, String.length r.2 ≤ 20) (to_reply <$> bs).
Proof.
  intros Hb Hlen. split_and!.
  - unfold prepare_message.
    destruct (Nat.leb_spec (length buttons) 3) as [_|]; [|lia].
    rewrite (prepare_button_message_buttons _ _ _ _ bs Hb).
    rewrite take_ge; [done|]. rewrite <- (are_buttons_length _ _ Hb). lia.
  - rewrite length_fmap. symmetry. by apply are_buttons_length.
  - apply to_reply_titles.
Qed.

Lemma prepare_message_up_to_three_buttons_witness :
  prepare_message Samples.converter "5959812345" "Shall I book it?"
    (Some Samples.yes_no) =
  Ok (ButtonMessage "5959812345" "Shall I book it?"
        [(PStr "/affirm", "Yes, I would like th"); (PStr "/deny", "No")]).
Proof.
  apply (prepare_message_up_to_three_buttons Samples.converter
           "5959812345" "Shall I book it?" Samples.yes_no
           [("Yes, I would like that very much", PStr "/affirm");
            ("No", PStr "/deny")]).
  - repeat constructor.
  - simpl. lia.
Defined.

(** C2. For every recipient, text and list of more than three Buttons,
    [prepare_message] returns the list-interactive shape with the label
    "Select" and one section whose rows are the first [min (len buttons) 10]
    Buttons in order, each made of its payload and the first 24 characters
    of its title; the Buttons after the tenth are dropped. *)
Theorem prepare_message_more_than_three_buttons self to text buttons bs :
  are_buttons buttons bs →
  3 < length buttons →
  prepare_message self to text (Some buttons) =
    Ok (ListMessage to text (to_row <$> take 10 bs))
  ∧ length (to_row <$> take 10 bs) = length buttons `min` 10
  ∧ Forall (λ r : pyval * string, String.length r.2 ≤ 24) (to_row <$> take 10 bs).
Proof.
  intros Hb Hlen. split_and!.
  - unfold prepare_message.
    destruct (Nat.leb_spec (length buttons) 3) as [|_]; [lia|].
    by apply prepare_list_message_buttons.
  - rewrite length_fmap, length_take, <- (are_buttons_length _ _ Hb). lia.
  - apply to_row_titles.
Qed.

Lemma prepare_message_more_than_three_buttons_witness :
  prepare_message Samples.converter "5959812345" "Which day?"
    (Some Samples.weekday_buttons) =
  Ok (ListMessage "5959812345" "Which day?"
        [(PStr "/day_Mon", "Mon"); (PStr "/day_Tue", "Tue");
         (PStr "/day_Wed", "Wed"); (PStr "/day_Thu", "Thu");
         (PStr "/day_Fri", "Fri"); (PStr "/day_Sat", "Sat");
         (PStr "/day_Sun", "Sun"); (PStr "/day_Mon2", "Mon2");
         (PStr "/day_Tue2", "Tue2"); (PStr "/day_Wed2", "Wed2")]).
Proof.
  apply (prepare_message_more_than_three_buttons Samples.converter
           "5959812345" "Which day?" Samples.weekday_buttons Samples.weekdays).
  - repeat constructor.
  - simpl. lia.
Defined.

(** C3. With [buttons] absent, [prepare_message] returns the plain-text
    shape: a mapping with exactly the keys [messaging_product], [to] and
    [text], whose body is the text unchanged. *)
Theorem prepare_message_without_buttons self to text :
  ∃ d : gmap string pyval,
    prepare_message self to text None = Ok (PDict d)
    ∧ PDict d = TextMessage to text
    ∧ dom d = {[ "messaging_product"; "to"; "text" ]}
    ∧ d !! "messaging_product" = Some (PStr "whatsapp")
    ∧ d !! "to" = Some (PStr to)
    ∧ d !! "text" = Some (PDict {[ "body" := PStr text ]})
    ∧ d !! "type" = None
    ∧ d !! "interactive" = None.
Proof. eexists. split_and!; reflexivity. Qed.

(** C7. With an empty list of buttons, [prepare_message] returns the
    button-interactive shape with no reply button, and not the plain-text
    shape. *)
Theorem prepare_message_empty_buttons self to text :
  prepare_message self to text (Some []) = Ok (ButtonMessage to text [])
  ∧ prepare_message self to text (Some []) ≠ prepare_message self to text None
  ∧ ∃ d i a : gmap string pyval,
      ButtonMessage to text [] = PDict d
      ∧ d !! "interactive" = Some (PDict i)
      ∧ i !! "type" = Some (PStr "button")
      ∧ i !! "action" = Some (PDict a)
      ∧ a !! "buttons" = Some (PList []).
Proof.
  split_and!.
  - reflexivity.
  - change (Ok (ButtonMessage to text []) ≠ Ok (TextMessage to text)).
    intros H.
    apply (f_equal (λ r, match r with Ok v => field "text" v | Raise _ => None end)) in H.
    vm_compute in H. discriminate.
  - do 3 eexists. split_and!; reflexivity.
Qed.



(** *** Inbound path *)

Lemma field_Some k v x :
  field k v = Some x → ∃ d, v = PDict d ∧ d !! k = Some x.
Proof. destruct v; simpl; try discriminate. eauto. Qed.

Lemma first_Some v x : first v = Some x → ∃ l, v = PList (x :: l).
Proof.
  destruct v as [| | | | |[|y l]|]; simpl; try discriminate.
  intros [= ->]. eauto.
Qed.

Lemma bind_Some {A B} (o : option A) (f : A → option B) y :
  o ≫= f = Some y → ∃ x, o = Some x ∧ f x = Some y.
Proof. destruct o; simpl; [eauto|discriminate]. Qed.

Lemma get_value_on_path self data change value :
  first_change data = Some change →
  field "value" change = Some value →
  _get_value self data = Ok value.
Proof.
  unfold first_change. intros H Hv.
  apply bind_Some in H as (e & He & H).
  apply bind_Some in H as (entry & Hentry & H).
  apply bind_Some in H as (c & Hc & Hchange).
  apply field_Some in He as (d & -> & He).
  apply first_Some in Hentry as (es & ->).
  apply field_Some in Hc as (de & -> & Hc).
  apply first_Some in Hchange as (cs & ->).
  apply field_Some in Hv as (dc & -> & Hv).
  unfold _get_value, or_else, not_in. simpl.
  rewrite He. simpl. rewrite Hc. simpl. rewrite Hv. reflexivity.
Qed.

Lemma hook_on_path self data message :
  first_message data = Some message →
  get_message_from_whatsapp_hook self data = message_to_rasa message.
Proof.
  unfold first_message. intros H.
  apply bind_Some in H as (change & Hchange & H).
  apply bind_Some in H as (value & Hvalue & H).
  apply bind_Some in H as (m & Hm & Hmessage).
  apply field_Some in Hm as (dv & -> & Hm).
  apply first_Some in Hmessage as (ms & ->).
  unfold get_message_from_whatsapp_hook.
  rewrite (get_value_on_path _ _ _ _ Hchange Hvalue).
  unfold or_else, not_in. simpl. rewrite Hm. reflexivity.
Qed.

Lemma eq_str_true v s : eq_str v s = true → v = PStr s.
Proof.
  destruct v; simpl; try discriminate.
  intros H. apply String.eqb_eq in H. by subst.
Qed.

(** The three recognised shapes are those on which [recognised_text] is
    defined. *)
Lemma message_text_recognised m t :
  message_text m t ↔ recognised_text m = Some t.
Proof.
  unfold recognised_text. split.
  - intros [tx Hty Htx Hb | i r Hty Hi Hity Hr Hid | i r Hty Hi Hity Hr Hid];
      rewrite Hty; simpl.
    + rewrite Htx. exact Hb.
    + rewrite Hi. simpl. rewrite Hity. simpl. rewrite Hr. exact Hid.
    + rewrite Hi. simpl. rewrite Hity. simpl. rewrite Hr. exact Hid.
  - destruct (m !! "type") as [ty|] eqn:Hty; [|discriminate].
    destruct (eq_str ty "text") eqn:Et.
    { apply eq_str_true in Et as ->. intros H.
      apply bind_Some in H as (x & Hx & H).
      apply field_Some in H as (tx & -> & H). by eapply text_message. }
    destruct (eq_str ty "interactive") eqn:Ei; [|discriminate].
    apply eq_str_true in Ei as ->.
    destruct (m !! "interactive" ≫= field "type") as [ity|] eqn:Hity;
      [|discriminate].
    apply bind_Some in Hity as (x & Hx & Hity).
    apply field_Some in Hity as (i & -> & Hity).
    rewrite Hx. simpl.
    destruct (eq_str ity "button_reply") eqn:Eb.
    { apply eq_str_true in Eb as ->. intros H.
      apply bind_Some in H as (y & Hy & H).
      apply field_Some in H as (r & -> & H). by eapply button_reply_message. }
    destruct (eq_str ity "list_reply") eqn:El; [|discriminate].
    apply eq_str_true in El as ->. intros H.
    apply bind_Some in H as (y & Hy & H).
    apply field_Some in H as (r & -> & H). by eapply list_reply_message.
Qed.

Lemma try_body_recognised m sender t :
  m !! "from" = Some sender →
  message_text m t →
  try_body (PDict m) = Ok (sender, t).
Proof.
  intros Hf [tx Hty Htx Hb | i r Hty Hi Hity Hr Hid | i r Hty Hi Hity Hr Hid];
    unfold try_body, and_then; simpl; rewrite Hf; simpl; rewrite Hty; simpl.
  - rewrite Htx. simpl. by rewrite Hb.
  - rewrite Hi. simpl. rewrite Hity. simpl. rewrite Hr. simpl. by rewrite Hid.
  - rewrite Hi. simpl. rewrite Hity. simpl. rewrite Hr. simpl. by rewrite Hid.
Qed.

Lemma message_to_rasa_recognised m sender t :
  m !! "from" = Some sender →
  message_text m t →
  t ≠ PNone →
  message_to_rasa (PDict m) = Ok (NormalizedInboundMessage sender t).
Proof.
  intros Hf Ht Hn. unfold message_to_rasa.
  rewrite (try_body_recognised m sender t Hf Ht). simpl.
  destruct t; try reflexivity. by destruct Hn.
Qed.

(** On a message of no recognised shape the outcome is the [ValueError]
    when the sub-structures entered are objects, and [TypeError] when one of
    them is not. *)
Lemma message_to_rasa_unrecognised m :
  recognised_text m = None →
  message_to_rasa (PDict m) =
    if entered_objects m
    then Raise (ValueError "Provided data is invalid!")
    else Raise TypeError.
Proof.
  unfold recognised_text, entered_objects, message_to_rasa, try_body, and_then.
  simpl.
  destruct (m !! "from") as [sender|]; simpl; [|done].
  destruct (m !! "type") as [ty|]; simpl; [|done].
  destruct (eq_str ty "text").
  { destruct (m !! "text") as [[| | | | | |tx]|]; simpl; try done.
    intros Hrec. by rewrite Hrec. }
  destruct (eq_str ty "interactive"); simpl; [|done].
  destruct (m !! "interactive") as [[| | | | | |i]|]; simpl; try done.
  destruct (i !! "type") as [ity|]; simpl; [|done].
  destruct (eq_str ity "button_reply").
  { destruct (i !! "button_reply") as [[| | | | | |r]|]; simpl; try done.
    intros Hrec. by rewrite Hrec. }
  destruct (eq_str ity "list_reply"); simpl; [|done].
  destruct (i !! "list_reply") as [[| | | | | |r]|]; simpl; try done.
  intros Hrec. by rewrite Hrec.
Qed.

(** Whatever [message] is, a value returned for it is a normalized message
    whose text is not [None]. *)
Lemma message_to_rasa_returns message r :
  message_to_rasa message = Ok r →
  ∃ sender t, r = NormalizedInboundMessage sender t ∧ t ≠ PNone.
Proof.
  unfold message_to_rasa.
  destruct (try_body message) as [[sender t]|[]]; simpl; try discriminate.
  destruct t; simpl; try discriminate;
    intros [= <-]; eexists _, _; (split; [reflexivity|discriminate]).
Qed.

Lemma bind_Ok {A B} (r : result A) (f : A → result B) y :
  r ≫= f = Ok y → ∃ x, r = Ok x ∧ f x = Ok y.
Proof. destruct r; simpl; [eauto|discriminate]. Qed.

(** [get_message_from_whatsapp_hook] has no [None] result: whatever the
    payload, a returned value is a normalized message with its text set. *)
Lemma hook_returns self data r :
  get_message_from_whatsapp_hook self data = Ok r →
  ∃ sender t, r = NormalizedInboundMessage sender t ∧ t ≠ PNone.
Proof.
  unfold get_message_from_whatsapp_hook. intros H.
  apply bind_Ok in H as (value & _ & H).
  apply bind_Ok in H as ([] & _ & H); [discriminate|].
  apply bind_Ok in H as (m & _ & H).
  apply bind_Ok in H as (message & _ & H).
  by apply message_to_rasa_returns in H.
Qed.

Lemma absent_or_empty_guard k v :
  absent_or_empty k v = true →
  or_else (not_in k v) (e ← getitem v k; n ← len e; Ok (n =? 0)) = Ok true.
Proof.
  destruct v; simpl; try discriminate. unfold or_else, not_in. simpl.
  destruct (d !! k) as [[| | | | |[|x l]|]|]; try discriminate; reflexivity.
Qed.

Lemma first_field_guard k v x :
  field k v ≫= first = Some x →
  or_else (not_in k v) (e ← getitem v k; n ← len e; Ok (n =? 0)) = Ok false
  ∧ (e ← getitem v k; getitem0 e) = Ok x.
Proof.
  intros H. apply bind_Some in H as (e & He & Hx).
  apply field_Some in He as (d & -> & He).
  apply first_Some in Hx as (l & ->).
  unfold or_else, not_in. simpl. rewrite He. done.
Qed.

Lemma absent_or_empty_lookup k d :
  absent_or_empty k (PDict d) = true →
  d !! k = None ∨ d !! k = Some (PList []).
Proof.
  simpl. destruct (d !! k) as [[| | | | |[|x l]|]|]; try discriminate; eauto.
Qed.

Lemma absent_lookup k d : absent k (PDict d) = true → d !! k = None.
Proof. simpl. destruct (d !! k); [discriminate|done]. Qed.


(** C4 (amended). For every payload whose path
    [entry[0].changes[0].value.messages[0]] exists and is an object with a
    field [from], and whose message has one of the three recognised shapes
    with the text [t]: when [t] is not null, parsing returns the normalized
    message made of the sender, [t] and an empty metadata mapping; when [t]
    is null, parsing raises [ValueError], as for a text that is not set. *)
Theorem hook_recognised_message self data m sender t :
  first_message data = Some (PDict m) →
  m !! "from" = Some sender →
  message_text m t →
  get_message_from_whatsapp_hook self data =
    if is_None t
    then Raise (ValueError "Provided data is invalid!")
    else Ok (NormalizedInboundMessage sender t).
Proof.
  intros Hpath Hf Ht. rewrite (hook_on_path _ _ _ Hpath).
  unfold message_to_rasa.
  rewrite (try_body_recognised m sender t Hf Ht). simpl.
  by destruct (is_None t).
Qed.

Lemma hook_recognised_message_witness :
  get_message_from_whatsapp_hook Samples.converter
    (Samples.webhook [PDict Samples.text_hi]) =
  Ok (PDict {[ "sender_id" := PStr "123"; "text" := PStr "hi";
               "metadata" := PDict ∅ ]}).
Proof.
  apply (hook_recognised_message Samples.converter
           (Samples.webhook [PDict Samples.text_hi]) Samples.text_hi
           (PStr "123") (PStr "hi")).
  - vm_compute. reflexivity.
  - vm_compute. reflexivity.
  - apply (text_message _ _ {[ "body" := PStr "hi" ]});
      vm_compute; reflexivity.
Defined.

(** A text message whose body is null has the shape of a text message, and
    is rejected. *)
Lemma hook_null_text_rejected :
  first_message (Samples.webhook [PDict Samples.text_null]) =
    Some (PDict Samples.text_null)
  ∧ Samples.text_null !! "from" = Some (PStr "123")
  ∧ message_text Samples.text_null PNone
  ∧ get_message_from_whatsapp_hook Samples.converter
      (Samples.webhook [PDict Samples.text_null]) =
    Raise (ValueError "Provided data is invalid!")
  ∧ get_message_from_whatsapp_hook Samples.converter
      (Samples.webhook [PDict Samples.text_null]) ≠
    Ok (NormalizedInboundMessage (PStr "123") PNone).
Proof.
  assert (get_message_from_whatsapp_hook Samples.converter
            (Samples.webhook [PDict Samples.text_null]) =
          Raise (ValueError "Provided data is invalid!")) as H
    by (vm_compute; reflexivity).
  split_and!; try (vm_compute; reflexivity).
  - apply (text_message _ _ {[ "body" := PNone ]}); vm_compute; reflexivity.
  - rewrite H. discriminate.
Qed.

(** A reply whose identifier is null is rejected in the same way. *)
Example hook_null_reply_id_rejected :
  get_message_from_whatsapp_hook Samples.converter
    (Samples.webhook
       [PDict {[ "from" := PStr "123"; "type" := PStr "interactive";
                 "interactive" :=
                   PDict {[ "type" := PStr "list_reply";
                            "list_reply" := PDict {[ "id" := PNone ]} ]} ]}]) =
  Raise (ValueError "Provided data is invalid!").
Proof. vm_compute. reflexivity. Qed.

(** The replies of the two interactive kinds, on the payloads of the
    specification's examples. *)
Example hook_button_reply :
  get_message_from_whatsapp_hook Samples.converter
    (Samples.webhook
       [PDict {[ "from" := PStr "123"; "type" := PStr "interactive";
                 "interactive" :=
                   PDict {[ "type" := PStr "button_reply";
                            "button_reply" := PDict {[ "id" := PStr "OPT_A" ]} ]} ]}]) =
  Ok (NormalizedInboundMessage (PStr "123") (PStr "OPT_A")).
Proof. vm_compute. reflexivity. Qed.

Example hook_list_reply :
  get_message_from_whatsapp_hook Samples.converter
    (Samples.webhook
       [PDict {[ "from" := PStr "123"; "type" := PStr "interactive";
                 "interactive" :=
                   PDict {[ "type" := PStr "list_reply";
                            "list_reply" := PDict {[ "id" := PStr "OPT_B" ]} ]} ]}]) =
  Ok (NormalizedInboundMessage (PStr "123") (PStr "OPT_B")).
Proof. vm_compute. reflexivity. Qed.

Lemma lookup_defect_Some s k v d :
  lookup_defect s k v = Some d →
  ∃ dv, v = PDict dv
    ∧ ((dv !! k = None ∧ d = Missing s)
       ∨ (dv !! k = Some (PList []) ∧ d = Empty s)).
Proof.
  destruct v as [| | | | | |dv]; simpl; try discriminate.
  destruct (dv !! k) as [[| | | | |[|x l]|]|] eqn:E; try discriminate;
    intros [= <-]; exists dv; (split; [done|]); [right|left]; done.
Qed.

(** C5 (amended). For every payload in which a required segment of the path
    is missing from its object or is an empty array, parsing raises
    [ValueError]: with the description "Provided data is invalid!" when
    [entry] or [changes] is missing or empty or [value] is missing, and
    "Provided value is invalid" when [messages] is missing or empty or
    [value] is an empty array. *)
Theorem hook_missing_segment self data d :
  path_defect data = Some d →
  get_message_from_whatsapp_hook self data =
    Raise (ValueError (defect_description d)).
Proof.
  unfold path_defect, get_message_from_whatsapp_hook, _get_value,
    or_else, not_in.
  destruct (lookup_defect Entry "entry" data) as [d0|] eqn:E1.
  { intros [= <-].
    apply lookup_defect_Some in E1 as (dv & -> & [[E ->]|[E ->]]);
      simpl; by rewrite E. }
  clear E1.
  destruct (field "entry" data ≫= first) as [entry|] eqn:H1; [|discriminate].
  apply bind_Some in H1 as (e & He & Hentry).
  apply field_Some in He as (dd & -> & He).
  apply first_Some in Hentry as (es & ->).
  simpl. rewrite He. simpl.
  destruct (lookup_defect Changes "changes" entry) as [d0|] eqn:E2.
  { intros [= <-].
    apply lookup_defect_Some in E2 as (dv & -> & [[E ->]|[E ->]]);
      simpl; by rewrite E. }
  clear E2.
  destruct (field "changes" entry ≫= first) as [change|] eqn:H2; [|discriminate].
  apply bind_Some in H2 as (c & Hc & Hchange).
  apply field_Some in Hc as (de & -> & Hc).
  apply first_Some in Hchange as (cs & ->).
  simpl. rewrite Hc. simpl.
  destruct (lookup_defect Value "value" change) as [d0|] eqn:E3.
  { intros [= <-].
    apply lookup_defect_Some in E3 as (dv & -> & [[E ->]|[E ->]]);
      simpl; by rewrite E. }
  clear E3.
  destruct (field "value" change) as [value|] eqn:H3; [|discriminate].
  apply field_Some in H3 as (dc & -> & Hv).
  simpl. rewrite Hv. simpl.
  intros E4.
  apply lookup_defect_Some in E4 as (dv & -> & [[E ->]|[E ->]]);
    simpl; by rewrite E.
Qed.

Lemma hook_missing_segment_witness :
  get_message_from_whatsapp_hook Samples.converter (Samples.webhook []) =
  Raise (ValueError "Provided value is invalid").
Proof.
  apply (hook_missing_segment Samples.converter (Samples.webhook [])
           (Empty Messages)).
  vm_compute. reflexivity.
Defined.

(** A [value] that is an empty array passes [_get_value] and fails the test
    on [messages]. *)
Example hook_empty_value :
  let data :=
    PDict {[ "entry" :=
      PList [PDict {[ "changes" := PList [PDict {[ "value" := PList [] ]}] ]}] ]} in
  path_defect data = Some (Empty Value)
  ∧ get_message_from_whatsapp_hook Samples.converter data =
    Raise (ValueError "Provided value is invalid").
Proof. split; vm_compute; reflexivity. Qed.

(** A payload without [entry], and one with an empty [entry], are rejected
    with the description "Provided data is invalid!". *)
Lemma hook_missing_entry_description :
  missing_segment (PDict ∅) = Some Entry
  ∧ missing_segment (PDict {[ "entry" := PList [] ]}) = Some Entry
  ∧ get_message_from_whatsapp_hook Samples.converter (PDict ∅) =
    Raise (ValueError "Provided data is invalid!")
  ∧ get_message_from_whatsapp_hook Samples.converter
      (PDict {[ "entry" := PList [] ]}) =
    Raise (ValueError "Provided data is invalid!")
  ∧ get_message_from_whatsapp_hook Samples.converter (PDict ∅) ≠
    Raise (ValueError "invalid: missing entry").
Proof.
  split_and!; try (vm_compute; reflexivity).
  vm_compute. discriminate.
Qed.

(** C6 (amended). For every payload whose path exists, whose message is an
    object of none of the three recognised shapes, and in which each
    sub-structure the parser enters is an object where present, parsing
    raises [ValueError] with the description "Provided data is invalid!";
    nothing is returned. *)
Theorem hook_unrecognised_message self data m :
  first_message data = Some (PDict m) →
  recognised_text m = None →
  entered_objects m = true →
  get_message_from_whatsapp_hook self data =
    Raise (ValueError "Provided data is invalid!").
Proof.
  intros Hpath Hrec Hobj. rewrite (hook_on_path _ _ _ Hpath).
  by rewrite (message_to_rasa_unrecognised m Hrec), Hobj.
Qed.

Lemma hook_unrecognised_message_witness :
  get_message_from_whatsapp_hook Samples.converter
    (Samples.webhook [PDict Samples.flow_reply]) =
  Raise (ValueError "Provided data is invalid!").
Proof.
  apply (hook_unrecognised_message Samples.converter
           (Samples.webhook [PDict Samples.flow_reply]) Samples.flow_reply);
    vm_compute; reflexivity.
Defined.

(** With a sub-structure that is entered and is not an object, a message of
    no recognised shape ends in [TypeError] instead. *)
Lemma hook_unrecognised_not_entered self data m :
  first_message data = Some (PDict m) →
  recognised_text m = None →
  entered_objects m = false →
  get_message_from_whatsapp_hook self data = Raise TypeError.
Proof.
  intros Hpath Hrec Hobj. rewrite (hook_on_path _ _ _ Hpath).
  by rewrite (message_to_rasa_unrecognised m Hrec), Hobj.
Qed.

(** Sub-structures that are not objects do no harm where the parser does
    not enter them: a reply of another kind beside a [button_reply] that is
    a string, and an image whose [text] is a string. *)
Example hook_unentered_substructures :
  let other_reply : gmap string pyval :=
    {[ "from" := PStr "123"; "type" := PStr "interactive";
       "interactive" := PDict {[ "type" := PStr "nfm_reply";
                                 "button_reply" := PStr "x" ]} ]} in
  let image : gmap string pyval :=
    {[ "from" := PStr "123"; "type" := PStr "image";
       "text" := PStr "caption" ]} in
  recognised_text other_reply = None
  ∧ entered_objects other_reply = true
  ∧ get_message_from_whatsapp_hook Samples.converter
      (Samples.webhook [PDict other_reply]) =
    Raise (ValueError "Provided data is invalid!")
  ∧ recognised_text image = None
  ∧ entered_objects image = true
  ∧ get_message_from_whatsapp_hook Samples.converter
      (Samples.webhook [PDict image]) =
    Raise (ValueError "Provided data is invalid!").
Proof. split_and!; vm_compute; reflexivity. Qed.

(** An interactive message whose kind is neither a button reply nor a list
    reply is rejected with the description "Provided data is invalid!". *)
Lemma hook_unrecognised_description :
  first_message (Samples.webhook [PDict Samples.flow_reply]) =
    Some (PDict Samples.flow_reply)
  ∧ recognised_text Samples.flow_reply = None
  ∧ get_message_from_whatsapp_hook Samples.converter
      (Samples.webhook [PDict Samples.flow_reply]) =
    Raise (ValueError "Provided data is invalid!")
  ∧ get_message_from_whatsapp_hook Samples.converter
      (Samples.webhook [PDict Samples.flow_reply]) ≠
    Raise (ValueError "invalid data").
Proof.
  split_and!; try (vm_compute; reflexivity).
  vm_compute. discriminate.
Qed.

(** C9. On payloads in which a value on the path is not of the expected
    kind, an exception other than [ValueError] leaves
    [get_message_from_whatsapp_hook]: [TypeError] when [text] or
    [interactive] is a string or when the message itself is one, [KeyError]
    when [entry] is an object. *)
Theorem hook_raises_other_than_ValueError :
  get_message_from_whatsapp_hook Samples.converter
    (Samples.webhook [PDict Samples.text_not_object]) = Raise TypeError
  ∧ get_message_from_whatsapp_hook Samples.converter
      (Samples.webhook [PDict Samples.interactive_not_object]) = Raise TypeError
  ∧ get_message_from_whatsapp_hook Samples.converter
      (Samples.webhook [PStr "hello"]) = Raise TypeError
  ∧ get_message_from_whatsapp_hook Samples.converter
      Samples.entry_is_object = Raise KeyError.
Proof. split_and!; vm_compute; reflexivity. Qed.

(** C10. Two payloads with the same first message on the path
    [entry[0].changes[0].value.messages[0]] have the same outcome, the
    returned message or the raised exception; nothing else in the payloads,
    and nothing of the converter, is looked at. *)
Theorem hook_depends_on_first_message self self' data data' message :
  first_message data = Some message →
  first_message data' = Some message →
  get_message_from_whatsapp_hook self data =
    get_message_from_whatsapp_hook self' data'.
Proof.
  intros H H'.
  by rewrite (hook_on_path _ _ _ H), (hook_on_path _ _ _ H').
Qed.

Lemma hook_depends_on_first_message_witness :
  get_message_from_whatsapp_hook Samples.converter
    (Samples.webhook [PDict Samples.text_hi]) =
  get_message_from_whatsapp_hook Samples.other_converter
    (Samples.busy_webhook [PDict Samples.text_hi; PStr "later"]).
Proof.
  apply (hook_depends_on_first_message Samples.converter
           Samples.other_converter _ _ (PDict Samples.text_hi));
    vm_compute; reflexivity.
Defined.

(** *** Sending *)

Lemma append_not_empty a b : b ≠ EmptyString → a +:+ b ≠ EmptyString.
Proof. destruct a; simpl; [done|discriminate]. Qed.

Lemma rstrip_append a b :
  Str.rstrip b ≠ EmptyString → Str.rstrip (a +:+ b) = a +:+ Str.rstrip b.
Proof.
  intros Hb. induction a as [|c a IH]; simpl; [done|].
  rewrite IH.
  change (String c a +:+ Str.rstrip b) with (String c (a +:+ Str.rstrip b)).
  destruct (a +:+ Str.rstrip b) eqn:E; [|reflexivity].
  by apply append_not_empty in E.
Qed.

Lemma rstrip_append_not_empty a b :
  Str.rstrip b ≠ EmptyString → Str.rstrip (a +:+ b) ≠ EmptyString.
Proof.
  intros Hb. rewrite (rstrip_append a b Hb). by apply append_not_empty.
Qed.

Lemma messages_url_stripped self :
  messages_url self =
    "https://graph.facebook.com/" +:+ _graphql_api_version self
    +:+ _phone_identifier self +:+ "/messages".
Proof.
  unfold messages_url, Str.strip.
  change (Str.lstrip _) with
    ("https://graph.facebook.com/" +:+
       (_graphql_api_version self +:+
          (_phone_identifier self +:+ ("/messages" +:+ Str.newline +:+ "        ")))).
  assert (Str.rstrip ("/messages" +:+ Str.newline +:+ "        ") = "/messages")
    as Hs by reflexivity.
  assert (Str.rstrip ("/messages" +:+ Str.newline +:+ "        ") ≠ "")
    as Hne by (rewrite Hs; discriminate).
  rewrite (rstrip_append "https://graph.facebook.com/")
    by by do 2 apply rstrip_append_not_empty.
  rewrite (rstrip_append (_graphql_api_version self))
    by by apply rstrip_append_not_empty.
  rewrite (rstrip_append (_phone_identifier self)) by done.
  by rewrite Hs.
Qed.

(** The URL of the request is the endpoint, the API version, the phone
    identifier and "/messages" put end to end: nothing is inserted between
    the version and the identifier, and white space inside them is kept. *)
Theorem messages_url_value self :
  messages_url self =
    "https://graph.facebook.com/" +:+ _graphql_api_version self
    +:+ _phone_identifier self +:+ "/messages".
Proof. apply messages_url_stripped. Qed.

(** *** Outbound path: truncation, labels and malformed buttons *)

Lemma button_loop_app pre rest bs acc :
  are_buttons pre bs →
  button_loop (pre ++ rest) acc =
    button_loop rest (acc ++ (reply_button ∘ to_reply <$> bs)).
Proof.
  intros H. revert acc.
  induction H as [|button b pre bs [Ht Hp] _ IH]; intros acc; simpl.
  - by rewrite app_nil_r.
  - rewrite Ht. simpl. rewrite Hp. simpl. rewrite IH.
    by rewrite <- app_assoc.
Qed.

Lemma list_loop_app pre rest bs acc :
  are_buttons pre bs →
  list_loop (pre ++ rest) acc =
    list_loop rest (acc ++ (list_row ∘ to_row <$> bs)).
Proof.
  intros H. revert acc.
  induction H as [|button b pre bs [Ht Hp] _ IH]; intros acc; simpl.
  - by rewrite app_nil_r.
  - rewrite Ht. simpl. rewrite Hp. simpl. rewrite IH.
    by rewrite <- app_assoc.
Qed.

(** Called on its own, [_prepare_button_message] uses the first three
    entries and never looks at the others: it is enough that the first three
    are Buttons. *)
Theorem prepare_button_message_first_three self to text buttons bs :
  are_buttons (take 3 buttons) bs →
  _prepare_button_message self to text buttons =
    Ok (ButtonMessage to text (to_reply <$> bs))
  ∧ length bs = length buttons `min` 3.
Proof.
  intros H. split.
  - unfold _prepare_button_message.
    rewrite (button_loop_buttons _ bs [] H). simpl.
    unfold ButtonMessage. by rewrite list_fmap_compose.
  - rewrite <- (are_buttons_length _ _ H), length_take. lia.
Qed.

Lemma prepare_button_message_first_three_witness :
  _prepare_button_message Samples.converter "5959812345" "Which day?"
    (take 4 Samples.weekday_buttons ++ [∅]) =
  Ok (ButtonMessage "5959812345" "Which day?"
        [(PStr "/day_Mon", "Mon"); (PStr "/day_Tue", "Tue");
         (PStr "/day_Wed", "Wed")]).
Proof.
  apply (prepare_button_message_first_three Samples.converter
           "5959812345" "Which day?"
           (take 4 Samples.weekday_buttons ++ [∅]) (take 3 Samples.weekdays)).
  repeat constructor.
Defined.

(** With more than three buttons, [prepare_message] never looks past the
    tenth: it is enough that the first ten entries are Buttons, whatever
    follows them. *)
Theorem prepare_message_ignores_after_tenth self to text buttons bs :
  3 < length buttons →
  are_buttons (take 10 buttons) bs →
  prepare_message self to text (Some buttons) =
    Ok (ListMessage to text (to_row <$> bs)).
Proof.
  intros Hlen H. unfold prepare_message.
  destruct (Nat.leb_spec (length buttons) 3) as [|_]; [lia|].
  unfold _prepare_list_message.
  rewrite (list_loop_buttons _ bs [] H). simpl.
  unfold ListMessage. by rewrite list_fmap_compose.
Qed.

Lemma prepare_message_ignores_after_tenth_witness :
  prepare_message Samples.converter "5959812345" "Which day?"
    (Some (take 10 Samples.weekday_buttons ++ [∅; {[ "title" := PInt 3 ]}])) =
  Ok (ListMessage "5959812345" "Which day?"
        (to_row <$> take 10 Samples.weekdays)).
Proof.
  apply (prepare_message_ignores_after_tenth Samples.converter
           "5959812345" "Which day?"
           (take 10 Samples.weekday_buttons ++ [∅; {[ "title" := PInt 3 ]}])
           (take 10 Samples.weekdays)).
  - simpl. lia.
  - repeat constructor.
Defined.

(** Called on its own with a label, [_prepare_list_message] puts the label
    both on the button that opens the list and on its only section, for any
    number of Buttons (also three or fewer), of which it keeps the first
    ten. *)
Theorem prepare_list_message_label self to text buttons bs list_name :
  are_buttons buttons bs →
  _prepare_list_message self to text buttons list_name =
    Ok (LabelledListMessage to text list_name (to_row <$> take 10 bs)).
Proof.
  intros H. unfold _prepare_list_message.
  rewrite (list_loop_buttons _ (take 10 bs)) by by apply are_buttons_take.
  simpl. unfold LabelledListMessage. by rewrite list_fmap_compose.
Qed.

Lemma prepare_list_message_label_witness :
  _prepare_list_message Samples.converter "5959812345" "Shall I book it?"
    Samples.yes_no "Answers" =
  Ok (LabelledListMessage "5959812345" "Shall I book it?" "Answers"
        [(PStr "/affirm", "Yes, I would like that v"); (PStr "/deny", "No")]).
Proof.
  apply (prepare_list_message_label Samples.converter
           "5959812345" "Shall I book it?" Samples.yes_no
           [("Yes, I would like that very much", PStr "/affirm");
            ("No", PStr "/deny")] "Answers").
  repeat constructor.
Defined.

Lemma take_through n (pre : list (gmap string pyval)) b post :
  length pre < n →
  ∃ post', take n (pre ++ b :: post) = pre ++ b :: post'.
Proof.
  intros H. rewrite take_app_ge by lia.
  destruct (n - length pre) as [|k] eqn:E; [lia|]. simpl. eauto.
Qed.

Lemma missing_key_raises self to text pre bs b post :
  are_buttons pre bs →
  length pre < 10 →
  b !! "title" = None
  ∨ (∃ t, b !! "title" = Some (PStr t) ∧ b !! "payload" = None) →
  prepare_message self to text (Some (pre ++ b :: post)) = Raise KeyError.
Proof.
  intros Hpre Hlen Hb. unfold prepare_message.
  assert (∀ rest acc, button_loop (b :: rest) acc = Raise KeyError) as Hbl.
  { intros rest acc. simpl. destruct Hb as [->|(t & -> & Hp)]; [done|].
    simpl. by rewrite Hp. }
  assert (∀ rest acc, list_loop (b :: rest) acc = Raise KeyError) as Hll.
  { intros rest acc. simpl. destruct Hb as [->|(t & -> & Hp)]; [done|].
    simpl. by rewrite Hp. }
  destruct (Nat.leb_spec (length (pre ++ b :: post)) 3) as [Hl|Hl].
  - unfold _prepare_button_message. rewrite take_ge by done.
    by rewrite (button_loop_app _ _ bs [] Hpre), Hbl.
  - unfold _prepare_list_message.
    destruct (take_through 10 pre b post Hlen) as [post' ->].
    by rewrite (list_loop_app _ _ bs [] Hpre), Hll.
Qed.

(** A button without a title, or with a title and without a payload, that
    comes after Buttons and among the entries used (the first ten) makes
    [prepare_message] raise [KeyError]: no message is built. *)
Theorem prepare_message_missing_key self to text pre bs b post :
  are_buttons pre bs →
  length pre < 10 →
  b !! "title" = None
  ∨ (∃ t, b !! "title" = Some (PStr t) ∧ b !! "payload" = None) →
  prepare_message self to text (Some (pre ++ b :: post)) = Raise KeyError.
Proof. apply missing_key_raises. Qed.

Lemma prepare_message_missing_key_witness :
  prepare_message Samples.converter "5959812345" "Shall I book it?"
    (Some (Samples.yes_no ++ [{[ "title" := PStr "Maybe" ]}])) =
  Raise KeyError.
Proof.
  apply (prepare_message_missing_key Samples.converter
           "5959812345" "Shall I book it?" Samples.yes_no
           [("Yes, I would like that very much", PStr "/affirm");
            ("No", PStr "/deny")] {[ "title" := PStr "Maybe" ]} []).
  - repeat constructor.
  - simpl. lia.
  - right. exists "Maybe". split; reflexivity.
Defined.

(** A button whose title is null, a boolean or a number, in the same
    position, makes [prepare_message] raise [TypeError]. *)
Theorem prepare_message_title_not_text self to text pre bs b t post :
  are_buttons pre bs →
  length pre < 10 →
  b !! "title" = Some t →
  not_text t = true →
  prepare_message self to text (Some (pre ++ b :: post)) = Raise TypeError.
Proof.
  intros Hpre Hlen Ht Hn. unfold prepare_message.
  assert (∀ rest acc, button_loop (b :: rest) acc = Raise TypeError) as Hbl.
  { intros rest acc. simpl. rewrite Ht. by destruct t. }
  assert (∀ rest acc, list_loop (b :: rest) acc = Raise TypeError) as Hll.
  { intros rest acc. simpl. rewrite Ht. by destruct t. }
  destruct (Nat.leb_spec (length (pre ++ b :: post)) 3) as [Hl|Hl].
  - unfold _prepare_button_message. rewrite take_ge by done.
    by rewrite (button_loop_app _ _ bs [] Hpre), Hbl.
  - unfold _prepare_list_message.
    destruct (take_through 10 pre b post Hlen) as [post' ->].
    by rewrite (list_loop_app _ _ bs [] Hpre), Hll.
Qed.

Lemma prepare_message_title_not_text_witness :
  prepare_message Samples.converter "5959812345" "Shall I book it?"
    (Some ([] ++ {[ "title" := PInt 7; "payload" := PStr "/seven" ]}
              :: Samples.yes_no)) =
  Raise TypeError.
Proof.
  apply (prepare_message_title_not_text Samples.converter
           "5959812345" "Shall I book it?" [] []
           {[ "title" := PInt 7; "payload" := PStr "/seven" ]} (PInt 7)
           Samples.yes_no).
  - constructor.
  - simpl. lia.
  - reflexivity.
  - reflexivity.
Defined.

Lemma first_chars_short n s : String.length s ≤ n → first_chars n s = s.
Proof.
  unfold first_chars. revert s.
  induction n as [|n IH]; intros [|c s]; simpl; try done; try lia.
  intros H. f_equal. apply IH. lia.
Qed.

(** Titles of at most 20 characters are sent unchanged on reply buttons. *)
Theorem prepare_message_short_reply_titles self to text buttons bs :
  are_buttons buttons bs →
  length buttons ≤ 3 →
  Forall (λ b : string * pyval, String.length b.1 ≤ 20) bs →
  prepare_message self to text (Some buttons) =
    Ok (ButtonMessage to text ((λ b : string * pyval, (b.2, b.1)) <$> bs)).
Proof.
  intros Hb Hl Ht. pose proof (are_buttons_length _ _ Hb) as Hlen.
  unfold prepare_message.
  destruct (Nat.leb_spec (length buttons) 3) as [_|]; [|lia].
  rewrite (prepare_button_message_buttons _ _ _ _ bs Hb).
  rewrite take_ge by lia. do 2 f_equal.
  apply Forall_fmap_ext_1. eapply Forall_impl; [exact Ht|].
  intros b H. unfold to_reply. by rewrite first_chars_short.
Qed.

Lemma prepare_message_short_reply_titles_witness :
  prepare_message Samples.converter "5959812345" "Which day?"
    (Some (take 3 Samples.weekday_buttons)) =
  Ok (ButtonMessage "5959812345" "Which day?"
        [(PStr "/day_Mon", "Mon"); (PStr "/day_Tue", "Tue");
         (PStr "/day_Wed", "Wed")]).
Proof.
  apply (prepare_message_short_reply_titles Samples.converter
           "5959812345" "Which day?" (take 3 Samples.weekday_buttons)
           (take 3 Samples.weekdays)).
  - repeat constructor.
  - simpl. lia.
  - repeat constructor; simpl; lia.
Defined.

(** Titles of at most 24 characters are sent unchanged on the rows of a
    list of four to ten buttons. *)
Theorem prepare_message_short_row_titles self to text buttons bs :
  are_buttons buttons bs →
  3 < length buttons →
  length buttons ≤ 10 →
  Forall (λ b : string * pyval, String.length b.1 ≤ 24) bs →
  prepare_message self to text (Some buttons) =
    Ok (ListMessage to text ((λ b : string * pyval, (b.2, b.1)) <$> bs)).
Proof.
  intros Hb Hl Hl' Ht. pose proof (are_buttons_length _ _ Hb) as Hlen.
  unfold prepare_message.
  destruct (Nat.leb_spec (length buttons) 3) as [|_]; [lia|].
  rewrite (prepare_list_message_buttons _ _ _ _ bs Hb).
  rewrite take_ge by lia. do 2 f_equal.
  apply Forall_fmap_ext_1. eapply Forall_impl; [exact Ht|].
  intros b H. unfold to_row. by rewrite first_chars_short.
Qed.

Lemma prepare_message_short_row_titles_witness :
  prepare_message Samples.converter "5959812345" "Which day?"
    (Some (take 5 Samples.weekday_buttons)) =
  Ok (ListMessage "5959812345" "Which day?"
        [(PStr "/day_Mon", "Mon"); (PStr "/day_Tue", "Tue");
         (PStr "/day_Wed", "Wed"); (PStr "/day_Thu", "Thu");
         (PStr "/day_Fri", "Fri")]).
Proof.
  apply (prepare_message_short_row_titles Samples.converter
           "5959812345" "Which day?" (take 5 Samples.weekday_buttons)
           (take 5 Samples.weekdays)).
  - repeat constructor.
  - simpl. lia.
  - simpl. lia.
  - repeat constructor; simpl; lia.
Defined.

(** *** Inbound path: what is accepted, and how the rest fails *)

(** One guarded step of the path: the test [k not in v or len(v[k]) == 0],
    then [v[k][0]]. When what follows returns, [v] is an object with a
    non-empty array or string under [k]. *)
Lemma guarded_first_Ok {B} k v msg (f : pyval → result B) r :
  (invalid ← or_else (not_in k v) (e ← getitem v k; n ← len e; Ok (n =? 0));
   if (invalid : bool) then Raise (ValueError msg) else
   e ← getitem v k; x ← getitem0 e; f x) = Ok r →
  ∃ d e x, v = PDict d ∧ d !! k = Some e ∧ f x = Ok r
    ∧ ((∃ l, e = PList (x :: l))
       ∨ (∃ a s, e = PStr (String a s) ∧ x = PStr (String a EmptyString))).
Proof.
  unfold or_else, not_in.
  destruct v as [| | | |s0|l0|d]; simpl; try discriminate.
  - destruct (String.index 0 k s0); discriminate.
  - destruct (existsb _ l0); discriminate.
  - destruct (d !! k) as [e|] eqn:He; simpl; [|discriminate].
    destruct e as [| | | |[|a s]|[|x l]|de]; simpl; try discriminate.
    + intros H. exists d, (PStr (String a s)), (PStr (String a EmptyString)).
      eauto 10.
    + intros H. exists d, (PList (x :: l)), x. eauto 10.
    + destruct (size de =? 0); discriminate.
Qed.

Lemma get_value_Ok self data value :
  _get_value self data = Ok value →
  ∃ change, first_change data = Some change ∧ field "value" change = Some value.
Proof.
  unfold _get_value. intros H.
  apply guarded_first_Ok in H as (d & e & entry & -> & He & H & Hentry).
  apply guarded_first_Ok in H as (de & c & change & -> & Hc & H & Hchange).
  destruct Hentry as [[l ->]|(a & s & _ & [=])].
  unfold not_in in H.
  destruct change as [| | | |s0|l0|dc]; simpl in H; try discriminate.
  - destruct (String.index 0 "value" s0); discriminate.
  - destruct (existsb _ l0); discriminate.
  - destruct (dc !! "value") as [v|] eqn:Hv; simpl in H; [|discriminate].
    injection H as ->.
    destruct Hchange as [[l' ->]|(a & s & -> & [=])].
    exists (PDict dc). unfold first_change. simpl. rewrite He. simpl.
    rewrite Hc. simpl. done.
Qed.

(** [_get_value] returns exactly when the payload is an object whose
    [entry] is a non-empty array, whose first entry is an object with a
    non-empty array [changes], and whose first change is an object with a
    key [value]; it then returns that value as it is, of whatever kind. *)
Theorem get_value_returns self data value :
  _get_value self data = Ok value ↔
  (change ← first_change data; field "value" change) = Some value.
Proof.
  split.
  - intros H. apply get_value_Ok in H as (change & -> & H). exact H.
  - intros H. apply bind_Some in H as (change & Hc & Hv).
    by apply (get_value_on_path self data change value).
Qed.

(** When [entry], [changes] or [value] is missing or empty, [_get_value]
    raises [ValueError]; a missing or empty [messages] is none of its
    concern, and it returns the value. *)
Theorem get_value_missing_segment self data s :
  missing_segment data = Some s →
  match s with
  | Messages => ∃ value, _get_value self data = Ok value
  | Entry | Changes | Value =>
      _get_value self data = Raise (ValueError "Provided data is invalid!")
  end.
Proof.
  unfold missing_segment, _get_value, or_else, not_in.
  destruct (absent_or_empty "entry" data) eqn:E1.
  { intros [= <-]. destruct data; try discriminate.
    apply absent_or_empty_lookup in E1 as [E1|E1]; simpl; by rewrite E1. }
  clear E1.
  destruct (field "entry" data ≫= first) as [entry|] eqn:H1; [|discriminate].
  apply bind_Some in H1 as (e & He & Hentry).
  apply field_Some in He as (d & -> & He).
  apply first_Some in Hentry as (es & ->).
  simpl. rewrite He. simpl.
  destruct (absent_or_empty "changes" entry) eqn:E2.
  { intros [= <-]. destruct entry; try discriminate.
    apply absent_or_empty_lookup in E2 as [E2|E2]; simpl; by rewrite E2. }
  clear E2.
  destruct (field "changes" entry ≫= first) as [change|] eqn:H2; [|discriminate].
  apply bind_Some in H2 as (c & Hc & Hchange).
  apply field_Some in Hc as (de & -> & Hc).
  apply first_Some in Hchange as (cs & ->).
  simpl. rewrite Hc. simpl.
  destruct (absent "value" change) eqn:E3.
  { intros [= <-]. destruct change; try discriminate.
    apply absent_lookup in E3. simpl. by rewrite E3. }
  clear E3.
  destruct (field "value" change) as [value|] eqn:H3; [|discriminate].
  apply field_Some in H3 as (dc & -> & Hv).
  simpl. rewrite Hv. simpl.
  destruct (absent_or_empty "messages" value) eqn:E4; [|discriminate].
  intros [= <-]. eauto.
Qed.

Lemma get_value_missing_segment_witness :
  _get_value Samples.converter
    (PDict {[ "entry" := PList [PDict {[ "changes" := PList [] ]}] ]}) =
  Raise (ValueError "Provided data is invalid!").
Proof.
  apply (get_value_missing_segment Samples.converter
           (PDict {[ "entry" := PList [PDict {[ "changes" := PList [] ]}] ]})
           Changes).
  vm_compute. reflexivity.
Defined.

(** What the [try] body returns with a text other than [None] comes from a
    message that is an object with a sender and one of the three shapes. *)
Lemma try_body_Ok message sender t :
  try_body message = Ok (sender, t) →
  t ≠ PNone →
  ∃ m, message = PDict m ∧ m !! "from" = Some sender ∧ message_text m t.
Proof.
  destruct message as [| | | | | |m]; try discriminate.
  intros H Hn. exists m. split; [done|]. revert H.
  unfold try_body, and_then. simpl.
  destruct (m !! "from") as [s|] eqn:Hf; simpl; [|discriminate].
  destruct (m !! "type") as [ty|] eqn:Hty; simpl; [|discriminate].
  destruct (eq_str ty "text") eqn:Et.
  { apply eq_str_true in Et as ->.
    destruct (m !! "text") as [[| | | | | |tx]|] eqn:Htx; simpl;
      try discriminate.
    destruct (tx !! "body") as [b|] eqn:Hb; simpl; [|discriminate].
    intros [= -> ->]. split; [done|]. by eapply text_message. }
  destruct (eq_str ty "interactive") eqn:Ei; simpl;
    [|intros [= _ <-]; by destruct Hn].
  apply eq_str_true in Ei as ->.
  destruct (m !! "interactive") as [[| | | | | |i]|] eqn:Hi; simpl;
    try discriminate.
  destruct (i !! "type") as [ity|] eqn:Hity; simpl; [|discriminate].
  destruct (eq_str ity "button_reply") eqn:Eb.
  { apply eq_str_true in Eb as ->.
    destruct (i !! "button_reply") as [[| | | | | |r]|] eqn:Hr; simpl;
      try discriminate.
    destruct (r !! "id") as [b|] eqn:Hb; simpl; [|discriminate].
    intros [= -> ->]. split; [done|]. by eapply button_reply_message. }
  destruct (eq_str ity "list_reply") eqn:El; simpl;
    [|intros [= _ <-]; by destruct Hn].
  apply eq_str_true in El as ->.
  destruct (i !! "list_reply") as [[| | | | | |r]|] eqn:Hr; simpl;
    try discriminate.
  destruct (r !! "id") as [b|] eqn:Hb; simpl; [|discriminate].
  intros [= -> ->]. split; [done|]. by eapply list_reply_message.
Qed.

(** A payload is accepted only if the whole path exists, the first message
    is an object with a sender, and it has one of the three recognised
    shapes with a text that is not null; what is returned is made of that
    sender and that text. *)
Theorem hook_accepts_only_recognised self data r :
  get_message_from_whatsapp_hook self data = Ok r →
  ∃ m sender t,
    first_message data = Some (PDict m)
    ∧ m !! "from" = Some sender
    ∧ message_text m t
    ∧ t ≠ PNone
    ∧ r = NormalizedInboundMessage sender t.
Proof.
  unfold get_message_from_whatsapp_hook. intros H.
  apply bind_Ok in H as (value & Hvalue & H).
  apply get_value_Ok in Hvalue as (change & Hchange & Hvalue).
  apply guarded_first_Ok in H as (dv & ms & message & -> & Hms & H & Hmessage).
  unfold message_to_rasa in H.
  destruct (try_body message) as [[sender t]|e] eqn:Htry;
    [|destruct e; discriminate].
  simpl in H. destruct (is_None t) eqn:Hn; [discriminate|].
  injection H as <-.
  assert (t ≠ PNone) as Ht by (intros ->; discriminate).
  apply try_body_Ok in Htry as (m & -> & Hf & Hm); [|done].
  destruct Hmessage as [[l ->]|(a & s & _ & [=])].
  exists m, sender, t. split_and!; try done.
  unfold first_message. rewrite Hchange. simpl. rewrite Hvalue. simpl.
  by rewrite Hms.
Qed.

Lemma hook_accepts_only_recognised_witness :
  ∃ m sender t,
    first_message (Samples.busy_webhook [PDict Samples.text_hi]) =
      Some (PDict m)
    ∧ m !! "from" = Some sender
    ∧ message_text m t
    ∧ t ≠ PNone
    ∧ NormalizedInboundMessage (PStr "123") (PStr "hi") =
      NormalizedInboundMessage sender t.
Proof.
  apply (hook_accepts_only_recognised Samples.converter
           (Samples.busy_webhook [PDict Samples.text_hi])).
  vm_compute. reflexivity.
Defined.

(** A message without a sender or without a type is rejected with
    [ValueError], whatever else it holds. *)
Theorem hook_sender_or_type_missing self data m :
  first_message data = Some (PDict m) →
  m !! "from" = None ∨ m !! "type" = None →
  get_message_from_whatsapp_hook self data =
    Raise (ValueError "Provided data is invalid!").
Proof.
  intros Hpath H. rewrite (hook_on_path _ _ _ Hpath).
  unfold message_to_rasa, try_body. simpl.
  destruct (m !! "from") as [s|]; simpl; [|done].
  destruct H as [H|H]; [done|]. by rewrite H.
Qed.

Lemma hook_sender_or_type_missing_witness :
  get_message_from_whatsapp_hook Samples.converter
    (Samples.webhook
       [PDict {[ "type" := PStr "text";
                 "text" := PDict {[ "body" := PStr "hi" ]} ]}]) =
  Raise (ValueError "Provided data is invalid!").
Proof.
  apply (hook_sender_or_type_missing Samples.converter _
           {[ "type" := PStr "text";
              "text" := PDict {[ "body" := PStr "hi" ]} ]}).
  - vm_compute. reflexivity.
  - left. reflexivity.
Defined.

(** Of a message only the keys [from], [type], [text] and [interactive] are
    read: two payloads whose first messages are objects that agree on these
    four keys have the same outcome. *)
Theorem hook_reads_four_keys self data data' m m' :
  first_message data = Some (PDict m) →
  first_message data' = Some (PDict m') →
  m !! "from" = m' !! "from" →
  m !! "type" = m' !! "type" →
  m !! "text" = m' !! "text" →
  m !! "interactive" = m' !! "interactive" →
  get_message_from_whatsapp_hook self data =
    get_message_from_whatsapp_hook self data'.
Proof.
  intros Hpath Hpath' Hf Hty Htx Hi.
  rewrite (hook_on_path _ _ _ Hpath), (hook_on_path _ _ _ Hpath').
  unfold message_to_rasa, try_body, and_then. simpl.
  by rewrite Hf, Hty, Htx, Hi.
Qed.

Lemma hook_reads_four_keys_witness :
  get_message_from_whatsapp_hook Samples.converter
    (Samples.webhook [PDict Samples.text_hi]) =
  get_message_from_whatsapp_hook Samples.converter
    (Samples.webhook
       [PDict (<[ "id" := PStr "wamid.HBg" ]>
                 (<[ "timestamp" := PStr "1700000000" ]> Samples.text_hi))]).
Proof.
  apply (hook_reads_four_keys Samples.converter _ _ Samples.text_hi
           (<[ "id" := PStr "wamid.HBg" ]>
              (<[ "timestamp" := PStr "1700000000" ]> Samples.text_hi)));
    vm_compute; reflexivity.
Defined.

(** A first message that is not an object (a string, a number, null, an
    array) makes the parser raise [TypeError]. *)
Theorem hook_message_not_object self data message :
  first_message data = Some message →
  (∀ m, message ≠ PDict m) →
  get_message_from_whatsapp_hook self data = Raise TypeError.
Proof.
  intros Hpath Hm. rewrite (hook_on_path _ _ _ Hpath).
  destruct message; try reflexivity. by destruct (Hm d).
Qed.

Lemma hook_message_not_object_witness :
  get_message_from_whatsapp_hook Samples.converter
    (Samples.webhook [PList [PDict Samples.text_hi]]) = Raise TypeError.
Proof.
  apply (hook_message_not_object Samples.converter _
           (PList [PDict Samples.text_hi])).
  - vm_compute. reflexivity.
  - discriminate.
Defined.

Lemma getitem_raises v k e :
  getitem v k = Raise e → e = KeyError ∨ e = TypeError.
Proof.
  destruct v; simpl; try (intros [= <-]; by right).
  destruct (d !! k); [discriminate|]. intros [= <-]. by left.
Qed.

(** The [try] body raises nothing but [KeyError] and [TypeError]. *)
Lemma try_body_raises message e :
  try_body message = Raise e → e = KeyError ∨ e = TypeError.
Proof.
  unfold try_body, and_then.
  repeat first
    [ progress simpl
    | discriminate
    | match goal with
      | |- Raise ?x = Raise _ → _ =>
          let H := fresh in intros H; injection H as <-; assumption
      | |- context [getitem ?v ?k] =>
          let E := fresh "E" in
          let x := fresh "x" in
          let e0 := fresh "e" in
          destruct (getitem v k) as [x|e0] eqn:E;
            [|apply getitem_raises in E]
      | |- context [eq_str ?v ?s] => destruct (eq_str v s)
      end ].
Qed.

(** One guarded step of the path ends with its [ValueError], with
    [TypeError] or [KeyError], or goes on with the first element: the
    subscript [[0]] is never applied to something empty. *)
Lemma guarded_first_cases {B} (P : result B → Prop) k v msg
    (f : pyval → result B) :
  P (Raise (ValueError msg)) →
  P (Raise TypeError) →
  P (Raise KeyError) →
  (∀ x, P (f x)) →
  P (invalid ← or_else (not_in k v) (e ← getitem v k; n ← len e; Ok (n =? 0));
     if (invalid : bool) then Raise (ValueError msg) else
     e ← getitem v k; x ← getitem0 e; f x).
Proof.
  intros Hv Ht Hk Hf. unfold or_else, not_in.
  destruct v as [| | | |s0|l0|d]; simpl; try done.
  - by destruct (String.index 0 k s0).
  - by destruct (existsb _ l0).
  - destruct (d !! k) as [e|]; simpl; [|done].
    destruct e as [| | | |[|a s]|[|x l]|de]; simpl; try done.
    by destruct (size de =? 0).
Qed.

Lemma message_to_rasa_outcome message : hook_outcome (message_to_rasa message).
Proof.
  destruct (message_to_rasa message) as [r|e] eqn:H.
  - apply message_to_rasa_returns in H as (sender & t & -> & Ht).
    by apply outcome_message.
  - unfold message_to_rasa in H.
    destruct (try_body message) as [[sender t]|e0] eqn:Htry; simpl in H.
    + destruct (is_None t); [|discriminate]. injection H as <-.
      apply outcome_invalid_data.
    + apply try_body_raises in Htry as [-> | ->]; injection H as <-.
      * apply outcome_invalid_data.
      * apply outcome_TypeError.
Qed.

(** Whatever the payload, the parser ends in one of five ways: it returns a
    normalized message whose text is set, or it raises [ValueError] with one
    of its two descriptions, [TypeError] or [KeyError]. In particular it
    never returns [None] and never raises [IndexError]. *)
Theorem hook_outcomes self data :
  hook_outcome (get_message_from_whatsapp_hook self data)
  ∧ get_message_from_whatsapp_hook self data ≠ Raise IndexError
  ∧ get_message_from_whatsapp_hook self data ≠ Ok PNone.
Proof.
  assert (hook_outcome (get_message_from_whatsapp_hook self data)) as H.
  { unfold get_message_from_whatsapp_hook, _get_value.
    apply (guarded_first_cases
             (λ r, hook_outcome (r ≫= _)) "entry" data);
      try (simpl; by constructor).
    intros entry.
    apply (guarded_first_cases
             (λ r, hook_outcome (r ≫= _)) "changes" entry);
      try (simpl; by constructor).
    intros change. unfold not_in.
    destruct change as [| | | |s0|l0|dc]; simpl; try by constructor.
    - destruct (String.index 0 "value" s0); simpl; by constructor.
    - destruct (existsb _ l0); simpl; by constructor.
    - destruct (dc !! "value") as [value|]; simpl; [|by constructor].
      apply (guarded_first_cases hook_outcome "messages" value);
        try by constructor.
      apply message_to_rasa_outcome. }
  split; [exact H|].
  split; intros E; rewrite E in H; inversion H.
Qed.

(** *** From the button to the reply *)

(** The payload of a Button makes the round trip: it is the identifier of
    the reply button sent, and when the hook delivers the tap on a button
    with that identifier, the parser returns it as the text. *)
Theorem button_payload_round_trip self to text buttons bs i title payload sender :
  are_buttons buttons bs →
  length buttons ≤ 3 →
  bs !! i = Some (title, payload) →
  payload ≠ PNone →
  ∃ replies,
    prepare_message self to text (Some buttons) =
      Ok (ButtonMessage to text replies)
    ∧ replies !! i = Some (payload, first_chars 20 title)
    ∧ get_message_from_whatsapp_hook self
        (button_reply_hook sender payload (first_chars 20 title)) =
      Ok (NormalizedInboundMessage sender payload).
Proof.
  intros Hb Hl Hi Hp. exists (to_reply <$> bs). split_and!.
  - unfold prepare_message.
    destruct (Nat.leb_spec (length buttons) 3) as [_|]; [|lia].
    rewrite (prepare_button_message_buttons _ _ _ _ bs Hb).
    rewrite take_ge; [done|]. rewrite <- (are_buttons_length _ _ Hb). lia.
  - rewrite list_lookup_fmap, Hi. reflexivity.
  - unfold button_reply_hook.
    erewrite hook_on_path by reflexivity.
    apply message_to_rasa_recognised; [reflexivity| |done].
    eapply button_reply_message; reflexivity.
Qed.

Lemma button_payload_round_trip_witness :
  ∃ replies,
    prepare_message Samples.converter "5959812345" "Shall I book it?"
      (Some Samples.yes_no) =
      Ok (ButtonMessage "5959812345" "Shall I book it?" replies)
    ∧ replies !! 1 = Some (PStr "/deny", "No")
    ∧ get_message_from_whatsapp_hook Samples.converter
        (button_reply_hook (PStr "5959812345") (PStr "/deny") "No") =
      Ok (NormalizedInboundMessage (PStr "5959812345") (PStr "/deny")).
Proof.
  apply (button_payload_round_trip Samples.converter
           "5959812345" "Shall I book it?" Samples.yes_no
           [("Yes, I would like that very much", PStr "/affirm");
            ("No", PStr "/deny")] 1 "No" (PStr "/deny") (PStr "5959812345")).
  - repeat constructor.
  - simpl. lia.
  - reflexivity.
  - discriminate.
Defined.

(** The same for a list: the payload of one of the first ten Buttons is the
    identifier of its row, and the choice of that row brings it back as the
    text. *)
Theorem row_payload_round_trip self to text buttons bs i title payload sender :
  are_buttons buttons bs →
  3 < length buttons →
  i < 10 →
  bs !! i = Some (title, payload) →
  payload ≠ PNone →
  ∃ rows,
    prepare_message self to text (Some buttons) =
      Ok (ListMessage to text rows)
    ∧ rows !! i = Some (payload, first_chars 24 title)
    ∧ get_message_from_whatsapp_hook self
        (list_reply_hook sender payload (first_chars 24 title)) =
      Ok (NormalizedInboundMessage sender payload).
Proof.
  intros Hb Hl Hi10 Hi Hp. exists (to_row <$> take 10 bs). split_and!.
  - unfold prepare_message.
    destruct (Nat.leb_spec (length buttons) 3) as [|_]; [lia|].
    by apply prepare_list_message_buttons.
  - rewrite list_lookup_fmap, lookup_take_lt by done. rewrite Hi. reflexivity.
  - unfold list_reply_hook.
    erewrite hook_on_path by reflexivity.
    apply message_to_rasa_recognised; [reflexivity| |done].
    eapply list_reply_message; reflexivity.
Qed.

Lemma row_payload_round_trip_witness :
  ∃ rows,
    prepare_message Samples.converter "5959812345" "Which day?"
      (Some Samples.weekday_buttons) =
      Ok (ListMessage "5959812345" "Which day?" rows)
    ∧ rows !! 4 = Some (PStr "/day_Fri", "Fri")
    ∧ get_message_from_whatsapp_hook Samples.converter
        (list_reply_hook (PStr "5959812345") (PStr "/day_Fri") "Fri") =
      Ok (NormalizedInboundMessage (PStr "5959812345") (PStr "/day_Fri")).
Proof.
  apply (row_payload_round_trip Samples.converter
           "5959812345" "Which day?" Samples.weekday_buttons Samples.weekdays
           4 "Fri" (PStr "/day_Fri") (PStr "5959812345")).
  - repeat constructor.
  - simpl. lia.
  - lia.
  - reflexivity.
  - discriminate.
Defined.

(** *** Sending *)



Lemma prepare_message_wire self to text buttons :
  buttons_argument buttons →
  ∃ body, prepare_message self to text buttons = Ok body ∧ wire_message body.
Proof.
  destruct buttons as [l|]; unfold buttons_argument, prepare_message.
  - intros [bs Hb]. destruct (Nat.leb_spec (length l) 3) as [Hl|Hl].
    + exists (ButtonMessage to text (to_reply <$> take 3 bs)).
      rewrite (prepare_button_message_buttons _ _ _ _ bs Hb).
      split; [reflexivity|].
      apply wire_button; [|apply to_reply_titles].
      rewrite length_fmap, length_take. lia.
    + exists (ListMessage to text (to_row <$> take 10 bs)).
      rewrite (prepare_list_message_buttons _ _ _ _ bs Hb).
      split; [reflexivity|].
      apply wire_list; [|apply to_row_titles].
      rewrite length_fmap, length_take. lia.
  - intros _. exists (TextMessage to text). split; [reflexivity|apply wire_text].
Qed.

(** With buttons absent or a list of Buttons, [send_message] makes exactly
    one POST: to the messages URL of the phone identifier, with the bearer
    token, the wire message of [prepare_message] as JSON and the configured
    timeout. It returns the decoded body of the response as it is, and a
    failure of the call or of the decoding is passed on. *)
Theorem send_message_posts_wire_message
    {world response failure : Type}
    (post : request → world → (failure + response) * world)
    (json : response → failure + pyval)
    self to text buttons (w : world) :
  buttons_argument buttons →
  ∃ body,
    prepare_message self to text buttons = Ok body
    ∧ wire_message body
    ∧ send_message world response failure post json self to text buttons w =
      let (r, w') :=
        post {| request_url :=
                  "https://graph.facebook.com/" +:+ _graphql_api_version self
                  +:+ _phone_identifier self +:+ "/messages";
                request_headers :=
                  {[ "Authorization" := "Bearer " +:+ _token self ]};
                request_json := body;
                request_timeout := _api_timeout self |} w in
      (match r with
       | inl f => Failed f
       | inr r =>
           match json r with
           | inl f => Failed f
           | inr decoded => Returned decoded
           end
       end, w').
Proof.
  intros Hb.
  destruct (prepare_message_wire self to text buttons Hb) as (body & Hp & Hw).
  exists body. split_and!; [done..|].
  unfold send_message. rewrite Hp, messages_url_stripped. unfold authorization.
  destruct (post _ w) as [[f|r] w']; [reflexivity|].
  by destruct (json r).
Qed.

Lemma send_message_posts_wire_message_witness :
  ∃ body,
    prepare_message Samples.converter "5959812345" "Shall I book it?"
      (Some Samples.yes_no) = Ok body
    ∧ wire_message body
    ∧ send_message (list request) pyval string Loopback.post Loopback.json
        Samples.converter "5959812345" "Shall I book it?"
        (Some Samples.yes_no) [] =
      (Returned body,
       [{| request_url :=
             "https://graph.facebook.com/v18.0/106540352242922/messages";
           request_headers := {[ "Authorization" := "Bearer EAAJB" ]};
           request_json := body;
           request_timeout := 10 |}]).
Proof.
  apply (send_message_posts_wire_message Loopback.post Loopback.json
           Samples.converter "5959812345" "Shall I book it?"
           (Some Samples.yes_no) []).
  exists [("Yes, I would like that very much", PStr "/affirm");
          ("No", PStr "/deny")].
  repeat constructor.
Defined.
